(** * LocalChef server: order lifecycle and payment reconciliation

    A shallow embedding of the Express handlers of [src/index.js] that
    create and move orders ([POST /orders], [PUT /orders/:id/cancel],
    [.../accept], [.../reject]), issue login tokens ([POST /auth/login]) and
    talk to the payment gateway ([POST /payments/create-payment],
    [POST /payments/webhook]).

    Modelling conventions.
    - A MongoDB collection is the list of its documents in natural order;
      a document is a finite map from field names to scalar values.
    - [updateOne] rewrites the first document that satisfies the filter.
      A JavaScript [undefined] inside a filter or an inserted document is
      serialised as BSON null (the driver's default, [ignoreUndefined] is
      not set by the server), and a null filter value selects the documents
      whose field is null or missing.
    - JSON numbers are integers ([Z]).
    - The clock ([new Date()]) and the identifier the driver generates for
      an inserted document are arguments of the handlers.
    - The libraries the server calls ([jsonwebtoken], the [ObjectId]
      constructor, the Stripe client) are variables of the section
      [Server]; a call that throws is a [None] (or [inl msg]) result.
    - The store itself never fails. *)

From Stdlib Require Import ZArith Ascii String.
From stdpp Require Import gmap strings list fin_maps pretty.

Open Scope string_scope.
Open Scope list_scope.

(** ** Values and documents *)

Inductive Value :=
  | VNull
  | VBool (b : bool)
  | VNum (n : Z)
  | VStr (s : string)
  | VId (hex : string)      (* an ObjectId, by its hexadecimal form *)
  | VDate (iso : string).   (* a Date object *)

#[global] Instance Value_eq_dec : EqDecision Value.
Proof. solve_decision. Defined.

Abbreviation Doc := (gmap string Value).

(** A JavaScript expression that may be [undefined] is an [option Value]. *)
Definition JsVal := option Value.

(** [!x] is [negb (truthy x)]. *)
Definition truthy (x : JsVal) : bool :=
  match x with
  | None | Some VNull => false
  | Some (VBool b) => b
  | Some (VNum n) => negb (n =? 0)%Z
  | Some (VStr s) => negb (String.eqb s "")
  | Some (VId _) | Some (VDate _) => true
  end.

(** [a || b] *)
Definition js_or (a b : JsVal) : JsVal := if truthy a then a else b.

(** BSON serialisation of a field value: [undefined] becomes null. *)
Definition bson (x : JsVal) : Value := default VNull x.

(** An object literal written to the store; a later key overrides an
    earlier one. *)
Definition bson_doc (base : Doc) (fields : list (string * JsVal)) : Doc :=
  fold_left (λ d kv, <[kv.1 := bson kv.2]> d) fields base.

(** An object literal serialised as JSON (a token payload): keys whose
    value is [undefined] are dropped. *)
Definition json_doc (fields : list (string * JsVal)) : Doc :=
  fold_left (λ d kv, match kv.2 with
                     | Some v => <[kv.1 := v]> d
                     | None => delete kv.1 d
                     end) fields ∅.

(** Response bodies. *)
#[local] Set Warnings "-register-all".
Inductive Json :=
  | JVal (v : Value)
  | JObj (fields : list (string * Json)).

(** ** The record store *)

Definition Filter := list (string * Value).

Definition field_matches (d : Doc) (cond : string * Value) : bool :=
  match cond.2 with
  | VNull => bool_decide (d !! cond.1 = None ∨ d !! cond.1 = Some VNull)
  | v => bool_decide (d !! cond.1 = Some v)
  end.

Definition matches (q : Filter) (d : Doc) : bool := forallb (field_matches d) q.

(** [{ $set: fields }] *)
Definition apply_set (fields : list (string * Value)) (d : Doc) : Doc :=
  fold_left (λ d kv, <[kv.1 := kv.2]> d) fields d.

Record UpdateResult := { matchedCount : nat; modifiedCount : nat }.

Fixpoint updateOne (q : Filter) (fields : list (string * Value)) (coll : list Doc)
  : list Doc * UpdateResult :=
  match coll with
  | [] => ([], {| matchedCount := 0; modifiedCount := 0 |})
  | d :: rest =>
      if matches q d then
        let d' := apply_set fields d in
        (d' :: rest,
         {| matchedCount := 1;
            modifiedCount := if decide (d' = d) then 0 else 1 |})
      else
        let r := updateOne q fields rest in (d :: r.1, r.2)
  end.

Definition findOne (q : Filter) (coll : list Doc) : option Doc :=
  find (matches q) coll.

(** [insertOne]: the driver adds [_id] when the document has none. *)
Definition insertOne (newId : string) (d : Doc) (coll : list Doc) : list Doc :=
  coll ++ [match d !! "_id" with Some _ => d | None => <["_id" := VId newId]> d end].

Record DB := { users : list Doc; orders : list Doc; payments : list Doc }.

Definition set_orders (db : DB) (os : list Doc) : DB :=
  {| users := users db; orders := os; payments := payments db |}.

Definition set_payments (db : DB) (ps : list Doc) : DB :=
  {| users := users db; orders := orders db; payments := ps |}.

(** ** The server *)

Section Server.

(** [jsonwebtoken]: a token is an opaque value; [jwt_verify] is [None]
    when [jwt.verify] throws. *)
Variable Token : Type.
Variable jwt_sign : Doc → Token.
Variable jwt_verify : Token → option Doc.

(** [new ObjectId(s)]: the hexadecimal form of the identifier, [None]
    when the constructor throws. *)
Variable ObjectId_new : string → option string.

(** JavaScript's conversion of a string to a number, [None] for NaN. *)
Variable ToNumber : string → option Z.

(** The Stripe client. [stripe_sessions_create] is
    [stripe.checkout.sessions.create], [None] when the call throws;
    [constructEvent] is [stripe.webhooks.constructEvent] with the
    server's webhook secret, [inl msg] when it throws. [Payload] is
    whatever the body parsers left in [req.body]. *)
Record SessionParams := {
  currency : JsVal;
  unit_amount : option Z;
  metadata_orderId : JsVal
}.
Record Session := { session_id : string; session_url : JsVal }.
Variable stripe_sessions_create : SessionParams → option Session.

Record StripeEvent := {
  event_type : string;
  object_id : string;                  (* event.data.object.id *)
  object_metadata_orderId : option string   (* event.data.object.metadata?.orderId *)
}.
Variable Payload : Type.
Variable constructEvent : Payload → option string → string + StripeEvent.

(** ** Requests and replies *)

Record Request := {
  cookie_token : option Token;   (* req.cookies?.token, None when falsy *)
  params_id : string;            (* req.params.id *)
  body : Doc                     (* req.body *)
}.

Inductive Reply :=
  | Json_reply (status : nat) (payload : Json)
  | Cookie_reply (token : Token) (payload : Json)  (* res.cookie(...); res.json(...) *)
  | Send_reply (status : nat) (text : string)
  | No_reply.                                      (* the handler threw outside a try *)

Definition message (status : nat) (text : string) : Reply :=
  Json_reply status (JObj [("message", JVal (VStr text))]).

Definition Handler := DB → DB * Reply.

(** ** Middleware *)

Definition verifyToken (req : Request) (next : Doc → Handler) : Handler :=
  λ db,
    match cookie_token req with
    | None => (db, message 401 "Unauthorized")
    | Some token =>
        match jwt_verify token with
        | Some decoded => next decoded db
        | None => (db, message 403 "Invalid token")
        end
    end.

Definition verifyRole (role : string) (user : Doc) (next : Handler) : Handler :=
  λ db,
    if decide (user !! "role" = Some (VStr role)) then next db
    else (db, message 403 "Forbidden: Insufficient role").

(** ** POST /auth/login *)

(** [id: user._id] is serialised by the identifier's [toJSON]. *)
Definition id_claim (x : JsVal) : JsVal :=
  match x with
  | Some (VId hex) => Some (VStr hex)
  | other => other
  end.

Definition login_payload (user : Doc) : Doc :=
  json_doc [("email", user !! "email"); ("role", user !! "role");
            ("id", id_claim (user !! "_id"))].

(** A response object; keys whose value is [undefined] are dropped. *)
Definition json_obj (fields : list (string * JsVal)) : Json :=
  JObj (omap (λ kv, (λ v, (kv.1, JVal v)) <$> kv.2) fields).

Definition auth_login (req : Request) : Handler :=
  λ db,
    match findOne [("email", bson (body req !! "email"))] (users db) with
    | None =>
        (db, Json_reply 404 (JObj [("success", JVal (VBool false));
                                   ("message", JVal (VStr "User not found"))]))
    | Some user =>
        let token := jwt_sign (login_payload user) in
        (db, Cookie_reply token
               (JObj [("success", JVal (VBool true));
                      ("user", json_obj
                         [("name", user !! "name");
                          ("email", user !! "email");
                          ("role", user !! "role");
                          ("status", user !! "status");
                          ("avatar", js_or (user !! "avatar") (Some VNull));
                          ("address", js_or (user !! "address") (Some VNull))])]))
    end.

(** ** POST /orders *)

Definition orders_post (now newId : string) (req : Request) : Handler :=
  verifyToken req (λ user, verifyRole "user" user (λ db,
    let mealId := body req !! "mealId" in
    let mealName := body req !! "mealName" in
    let foodName := body req !! "foodName" in
    let chefId := body req !! "chefId" in
    let chefName := body req !! "chefName" in
    let price := body req !! "price" in
    let finalMealName := js_or mealName foodName in
    if negb (truthy mealId) || negb (truthy finalMealName) || negb (truthy chefId)
       || negb (truthy chefName) || negb (truthy price)
    then (db, message 400 "Missing required fields")
    else
      let order := bson_doc ∅
        [("mealId", mealId); ("mealName", finalMealName); ("chefId", chefId);
         ("chefName", chefName); ("price", price);
         ("userEmail", user !! "email");
         ("orderStatus", Some (VStr "pending"));
         ("paymentStatus", Some (VStr "Pending"));
         ("orderTime", Some (VStr now))] in
      (set_orders db (insertOne newId order (orders db)),
       Json_reply 200 (JObj [("success", JVal (VBool true));
                             ("insertedId", JVal (VId newId))])))).

(** ** POST /user/orders (the older order route) *)

Definition user_orders_post (now newId : string) (req : Request) : Handler :=
  verifyToken req (λ user db,
    let orderData := bson_doc (body req)
        [("userEmail", user !! "email");
         ("orderStatus", Some (VStr "pending"));
         ("paymentStatus", Some (VStr "unpaid"));
         ("orderTime", Some (VDate now))] in
    let coll := insertOne newId orderData (orders db) in
    (set_orders db coll,
     Json_reply 200 (JObj [("acknowledged", JVal (VBool true));
                           ("insertedId", JVal (default (VId newId) (orderData !! "_id")))]))).

(** ** PUT /orders/:id/cancel, /accept, /reject *)

Definition modified (r : UpdateResult) : Reply :=
  Json_reply 200 (JObj [("success", JVal (VBool true));
                        ("modifiedCount", JVal (VNum (Z.of_nat (modifiedCount r))))]).

Definition orders_cancel (now : string) (req : Request) : Handler :=
  verifyToken req (λ user, verifyRole "user" user (λ db,
    match ObjectId_new (params_id req) with
    | None => (db, message 500 "Failed to cancel order")
    | Some oid =>
        let updated := updateOne
          [("_id", VId oid); ("userEmail", bson (user !! "email"))]
          [("orderStatus", VStr "cancelled"); ("cancelledAt", VStr now)]
          (orders db) in
        (set_orders db updated.1, modified updated.2)
    end)).

Definition orders_accept (now : string) (req : Request) : Handler :=
  verifyToken req (λ user, verifyRole "chef" user (λ db,
    match ObjectId_new (params_id req) with
    | None => (db, message 500 "Failed to accept order")
    | Some oid =>
        let updated := updateOne
          [("_id", VId oid); ("chefId", bson (user !! "chefId"))]
          [("orderStatus", VStr "accepted"); ("acceptedAt", VStr now)]
          (orders db) in
        (set_orders db updated.1, modified updated.2)
    end)).

Definition orders_reject (now : string) (req : Request) : Handler :=
  verifyToken req (λ user, verifyRole "chef" user (λ db,
    match ObjectId_new (params_id req) with
    | None => (db, message 500 "Failed to reject order")
    | Some oid =>
        let updated := updateOne
          [("_id", VId oid); ("chefId", bson (user !! "chefId"))]
          [("orderStatus", VStr "rejected"); ("rejectedAt", VStr now)]
          (orders db) in
        (set_orders db updated.1, modified updated.2)
    end)).

(** ** POST /payments/create-payment *)

(** [amount * 100] *)
Definition times_100 (amount : JsVal) : option Z :=
  match amount with
  | Some (VNum n) => Some (n * 100)%Z
  | Some VNull => Some 0%Z
  | Some (VBool b) => Some (if b then 100 else 0)%Z
  | Some (VStr s) => (λ n, n * 100)%Z <$> ToNumber s
  | Some (VId _) | Some (VDate _) | None => None
  end.

Definition checkout_params (req : Request) : SessionParams :=
  {| currency := js_or (body req !! "currency") (Some (VStr "usd"));
     unit_amount := times_100 (body req !! "amount");
     metadata_orderId := body req !! "orderId" |}.

Definition payments_create_payment (now newId : string) (req : Request) : Handler :=
  verifyToken req (λ user db,
    let amount := body req !! "amount" in
    let currency := body req !! "currency" in
    let orderId := body req !! "orderId" in
    match stripe_sessions_create (checkout_params req) with
    | None => (db, message 500 "Payment creation failed")
    | Some session =>
        let paymentRecord := bson_doc ∅
          [("orderId", orderId);
           ("email", user !! "email");
           ("amount", amount);
           ("currency", js_or currency (Some (VStr "usd")));
           ("status", Some (VStr "pending"));
           ("sessionId", Some (VStr (session_id session)));
           ("createdAt", Some (VStr now))] in
        (set_payments db (insertOne newId paymentRecord (payments db)),
         Json_reply 200 (json_obj [("success", Some (VBool true));
                                   ("id", Some (VStr (session_id session)));
                                   ("url", session_url session)]))
    end).

(** ** POST /payments/webhook *)

Definition received : Reply :=
  Json_reply 200 (JObj [("received", JVal (VBool true))]).

Definition payments_webhook (now : string) (payload : Payload) (sig : option string)
  : Handler :=
  λ db,
    match constructEvent payload sig with
    | inl msg => (db, Send_reply 400 ("Webhook Error: " +:+ msg))
    | inr event =>
        if decide (event_type event = "checkout.session.completed") then
          let db1 := set_payments db
            (updateOne [("sessionId", VStr (object_id event))]
                       [("status", VStr "paid"); ("paidAt", VStr now)]
                       (payments db)).1 in
          match object_metadata_orderId event with
          | Some orderId =>
              if String.eqb orderId "" then (db1, received)
              else
                match ObjectId_new orderId with
                | None => (db1, No_reply)
                | Some oid =>
                    (set_orders db1
                       (updateOne [("_id", VId oid)]
                                  [("paymentStatus", VStr "paid");
                                   ("orderStatus", VStr "accepted")]
                                  (orders db1)).1,
                     received)
                end
          | None => (db1, received)
          end
        else (db, received)
    end.

End Server.

Arguments Build_Request {Token}.
Arguments cookie_token {Token}.
Arguments params_id {Token}.
Arguments body {Token}.
Arguments Json_reply {Token}.
Arguments Cookie_reply {Token}.
Arguments Send_reply {Token}.
Arguments No_reply {Token}.
Arguments message {Token}.
Arguments modified {Token}.
Arguments received {Token}.

(** ** Sequences of lifecycle requests *)

Inductive Op := Cancel | Accept | Reject.

Record Call (Token : Type) := { call_op : Op; call_now : string; call_req : Request Token }.
Arguments Build_Call {Token}.
Arguments call_op {Token}.
Arguments call_now {Token}.
Arguments call_req {Token}.

Definition run_call {Token} (jwt_verify : Token → option Doc)
    (ObjectId_new : string → option string) (c : Call Token) : Handler Token :=
  match call_op c with
  | Cancel => orders_cancel Token jwt_verify ObjectId_new (call_now c) (call_req c)
  | Accept => orders_accept Token jwt_verify ObjectId_new (call_now c) (call_req c)
  | Reject => orders_reject Token jwt_verify ObjectId_new (call_now c) (call_req c)
  end.


(** ** Vocabulary of the statements *)

(** The document's field [k] satisfies the filter condition [k: x]. *)
Definition field_is (d : Doc) (k : string) (x : JsVal) : Prop :=
  field_matches d (k, bson x) = true.




(** The filter and the update of each lifecycle route. *)
Definition op_role (op : Op) : string :=
  match op with Cancel => "user" | Accept | Reject => "chef" end.

Definition op_owner (op : Op) : string * string :=   (* order field, token claim *)
  match op with Cancel => ("userEmail", "email") | Accept | Reject => ("chefId", "chefId") end.

Definition op_status (op : Op) : string :=
  match op with Cancel => "cancelled" | Accept => "accepted" | Reject => "rejected" end.

Definition op_stamp (op : Op) : string :=
  match op with Cancel => "cancelledAt" | Accept => "acceptedAt" | Reject => "rejectedAt" end.

Definition op_filter (op : Op) (oid : string) (user : Doc) : Filter :=
  [("_id", VId oid); ((op_owner op).1, bson (user !! (op_owner op).2))].

Definition op_fields (op : Op) (now : string) : list (string * Value) :=
  [("orderStatus", VStr (op_status op)); (op_stamp op, VStr now)].




(** ** Test doubles for the libraries *)

Module Fixture.

(** A token is the claims it carries; signing stamps [iat] and [exp]. *)
Definition jwt_sign (payload : Doc) : Doc :=
  <["exp" := VNum 86400]> (<["iat" := VNum 0]> payload).
Definition jwt_verify (token : Doc) : option Doc := Some token.

Definition is_hex (a : ascii) : bool :=
  let n := nat_of_ascii a in
  ((48 <=? n) && (n <=? 57) || (97 <=? n) && (n <=? 102) || (65 <=? n) && (n <=? 70))%nat.

Definition lower (a : ascii) : ascii :=
  let n := nat_of_ascii a in
  if ((65 <=? n) && (n <=? 70))%nat then ascii_of_nat (n + 32) else a.

(** Twenty-four hexadecimal digits. *)
Definition ObjectId_new (s : string) : option string :=
  let cs := list_ascii_of_string s in
  if ((length cs =? 24)%nat && forallb is_hex cs)
  then Some (string_of_list_ascii (map lower cs)) else None.

Definition ToNumber (s : string) : option Z := None.

Definition gateway_up (p : SessionParams) : option Session :=
  Some {| session_id := "cs_test_a1";
          session_url := Some (VStr "https://checkout.stripe.com/c/pay/cs_test_a1") |}.

(** The payload is the event it encodes; one signature is good. *)
Definition constructEvent (payload : StripeEvent) (sig : option string)
  : string + StripeEvent :=
  if decide (sig = Some "t=1,v1=good") then inr payload
  else inl "No signatures found matching the expected signature for payload".

Definition t0 : string := "2025-01-01T10:00:00.000Z".
Definition t1 : string := "2025-01-01T10:05:00.000Z".
Definition t2 : string := "2025-01-01T10:09:00.000Z".

Definition order_id : string := "64b7f0c2a1d3e4f5a6b7c8d9".
Definition payment_id : string := "64b7f0c2a1d3e4f5a6b7c8e0".

(** A chef as the approval of a chef request leaves it in [users]. *)
Definition chef_user : Doc :=
  {[ "_id" := VId "64b7f0c2a1d3e4f5a6b7c8aa"; "name" := VStr "Rina";
     "email" := VStr "chef@x.com"; "role" := VStr "chef"; "status" := VStr "active";
     "chefId" := VStr "chef-1234" ]}.

Definition customer_user : Doc :=
  {[ "_id" := VId "64b7f0c2a1d3e4f5a6b7c8ab"; "name" := VStr "Uma";
     "email" := VStr "u@x.com"; "role" := VStr "user"; "status" := VStr "active" ]}.

Definition empty_db : DB :=
  {| users := [chef_user; customer_user]; orders := []; payments := [] |}.

Definition login_as (email : string) : Request Doc :=
  {| cookie_token := None; params_id := ""; body := {[ "email" := VStr email ]} |}.

(** The token cookie that POST /auth/login sets. *)
Definition token_of (email : string) : Doc :=
  match (auth_login Doc jwt_sign (login_as email) empty_db).2 with
  | Cookie_reply token _ => token
  | _ => ∅
  end.

Definition customer : Doc := token_of "u@x.com".
Definition chef : Doc := token_of "chef@x.com".

Definition as_ (who : Doc) (id : string) (b : Doc) : Request Doc :=
  {| cookie_token := Some who; params_id := id; body := b |}.

Definition order_body (price : Z) : Doc :=
  {[ "mealId" := VStr "m1"; "mealName" := VStr "Khichuri"; "chefId" := VStr "chef-1234";
     "chefName" := VStr "Rina"; "price" := VNum price ]}.

(** One order, placed by the customer with the chef. *)
Definition placed : DB :=
  (orders_post Doc jwt_verify t0 order_id (as_ customer "" (order_body 20)) empty_db).1.

(** One order placed through the older route, with no [chefId]. *)
Definition placed_without_chef : DB :=
  (user_orders_post Doc jwt_verify t0 order_id
     (as_ customer "" {[ "mealId" := VStr "m1"; "price" := VNum 20 ]}) empty_db).1.

Definition checkout_body (amount : Z) : Doc :=
  {[ "amount" := VNum amount; "orderId" := VStr order_id ]}.

Definition checked_out (db : DB) : DB :=
  (payments_create_payment Doc jwt_verify ToNumber gateway_up t0 payment_id
     (as_ customer "" (checkout_body 20)) db).1.

Definition completed (session orderId : string) : StripeEvent :=
  {| event_type := "checkout.session.completed"; object_id := session;
     object_metadata_orderId := Some orderId |}.

Definition good : option string := Some "t=1,v1=good".
Definition forged : option string := Some "t=1,v1=forged".

Definition webhook (now : string) (event : StripeEvent) (sig : option string)
  : Handler Doc :=
  payments_webhook Doc ObjectId_new StripeEvent constructEvent now event sig.

Definition cancel (now : string) : Call Doc :=
  {| call_op := Cancel; call_now := now; call_req := as_ customer order_id ∅ |}.
Definition reject (now : string) : Call Doc :=
  {| call_op := Reject; call_now := now; call_req := as_ chef order_id ∅ |}.

Definition call (c : Call Doc) : Handler Doc := run_call jwt_verify ObjectId_new c.

(** The order cancelled by its customer; the order paid while pending. *)
Definition cancelled : DB := (call (cancel t1) placed).1.
Definition settlement : StripeEvent := completed "cs_test_a1" order_id.
Definition settled : DB := (webhook t1 settlement good (checked_out placed)).1.

(** The first order, the first payment and a field of them. *)
Definition the_order (db : DB) : Doc := default ∅ (head (orders db)).
Definition order_field (db : DB) (k : string) : JsVal := the_order db !! k.

End Fixture.

(** * The other routes

    The routes below work on the collections left out so far. A reply that
    carries documents is a [Data]; the other replies are the ones above. A
    route that inserts a document answers with its 500 when the [_id] is
    already taken (the store's duplicate-key error). *)

Inductive Body :=
  | BVal (v : Value)
  | BDocs (ds : list Doc)
  | BObj (fields : list (string * Body)).

Record Store := {
  core : DB;
  meals : list Doc;
  reviews : list Doc;
  favorites : list Doc;
  requests : list Doc
}.

Definition set_core (s : Store) (db : DB) : Store :=
  {| core := db; meals := meals s; reviews := reviews s;
     favorites := favorites s; requests := requests s |}.
Definition set_users (s : Store) (us : list Doc) : Store :=
  set_core s {| users := us; orders := orders (core s); payments := payments (core s) |}.
Definition set_meals (s : Store) (ms : list Doc) : Store :=
  {| core := core s; meals := ms; reviews := reviews s;
     favorites := favorites s; requests := requests s |}.
Definition set_reviews (s : Store) (rs : list Doc) : Store :=
  {| core := core s; meals := meals s; reviews := rs;
     favorites := favorites s; requests := requests s |}.
Definition set_favorites (s : Store) (fs : list Doc) : Store :=
  {| core := core s; meals := meals s; reviews := reviews s;
     favorites := fs; requests := requests s |}.
Definition set_requests (s : Store) (rs : list Doc) : Store :=
  {| core := core s; meals := meals s; reviews := reviews s;
     favorites := favorites s; requests := rs |}.

(** [find(q).toArray()] *)
Definition find (q : Filter) (coll : list Doc) : list Doc :=
  List.filter (matches q) coll.

(** [deleteOne]: the first match is removed; the count is returned. *)
Fixpoint deleteOne (q : Filter) (coll : list Doc) : list Doc * nat :=
  match coll with
  | [] => ([], 0%nat)
  | d :: rest =>
      if matches q d then (rest, 1%nat)
      else let r := deleteOne q rest in (d :: r.1, r.2)
  end.

(** The driver gives an [_id] to a document whose [_id] is null or
    undefined. *)
Definition with_id (newId : string) (d : Doc) : Doc :=
  match d !! "_id" with
  | None | Some VNull => <["_id" := VId newId]> d
  | Some _ => d
  end.

(** [insertOne], [None] when the [_id] is taken. *)
Definition insertOne_unique (newId : string) (d : Doc) (coll : list Doc)
  : option (list Doc) :=
  let d' := with_id newId d in
  if existsb (λ x, bool_decide (x !! "_id" = d' !! "_id")) coll then None
  else Some (coll ++ [d']).

(** [a !== b] is [negb (js_strict_eq a b)]; two objects are never equal. *)
Definition js_strict_eq (a b : JsVal) : bool :=
  match a with
  | Some (VId _) | Some (VDate _) => false
  | _ => bool_decide (a = b)
  end.

(** [x || d] on numbers, [None] being NaN. *)
Definition or_num (x : option Z) (d : Z) : Z :=
  match x with
  | Some n => if (n =? 0)%Z then d else n
  | None => d
  end.

(** [a < b] on numbers, [None] being NaN. *)
Definition js_lt (a b : option Z) : bool :=
  match a, b with
  | Some x, Some y => (x <? y)%Z
  | _, _ => false
  end.

(** [Math.ceil(a / b)] *)
Definition ceil_div (a b : Z) : Z := (- ((- a) / b))%Z.

Section Site.

Variable Token : Type.
Variable jwt_sign : Doc → Token.
Variable jwt_verify : Token → option Doc.
Variable ObjectId_new : string → option string.
Variable ToNumber : string → option Z.

(** [parseInt] of a query parameter, [None] for NaN. *)
Variable parseInt : option string → option Z.

(** What a cursor returns for a negative [skip] or [limit]; [None] when
    the command fails. *)
Variable cursor_irregular : Z → Z → list Doc → option (list Doc).

Inductive Response :=
  | Plain (r : Reply Token)
  | Data (status : nat) (payload : Body).

Definition Route := Store → Store * Response.

Definition fail (status : nat) (text : string) : Response :=
  Plain (message status text).

Definition ok (fields : list (string * Json)) : Response :=
  Plain (Json_reply 200 (JObj (("success", JVal (VBool true)) :: fields))).

(** The routes above, on the whole store. *)
Definition lift (h : Handler Token) : Route :=
  λ s, let out := h (core s) in (set_core s out.1, Plain out.2).

(** [verifyToken] and [verifyRole] for these routes. *)
Definition withToken (req : Request Token) (next : Doc → Route) : Route :=
  λ s,
    match cookie_token req with
    | None => (s, fail 401 "Unauthorized")
    | Some token =>
        match jwt_verify token with
        | Some decoded => next decoded s
        | None => (s, fail 403 "Invalid token")
        end
    end.

Definition withRole (role : string) (user : Doc) (next : Route) : Route :=
  λ s,
    if decide (user !! "role" = Some (VStr role)) then next s
    else (s, fail 403 "Forbidden: Insufficient role").

(** ** POST /auth/register *)

Definition register_payload (b : Doc) : Doc :=
  json_doc [("email", b !! "email");
            ("role", js_or (b !! "role") (Some (VStr "user")))].

Definition auth_register (newId : string) (req : Request Token) : Route :=
  λ s,
    let b := body req in
    match findOne [("email", bson (b !! "email"))] (users (core s)) with
    | Some existingUser => (s, fail 400 "Email already exists")
    | None =>
        let role := js_or (b !! "role") (Some (VStr "user")) in
        let status := js_or (b !! "status") (Some (VStr "active")) in
        let newUser := bson_doc ∅
          [("name", b !! "name"); ("email", b !! "email");
           ("address", b !! "address"); ("avatar", b !! "avatar");
           ("role", role); ("status", status)] in
        match insertOne_unique newId newUser (users (core s)) with
        | None =>
            (s, Plain (Json_reply 500
                         (JObj [("success", JVal (VBool false));
                                ("message", JVal (VStr "Registration failed"))])))
        | Some us =>
            let token := jwt_sign (register_payload b) in
            (set_users s us,
             Plain (Cookie_reply token
                      (JObj [("success", JVal (VBool true));
                             ("user", json_obj
                                [("name", b !! "name"); ("email", b !! "email");
                                 ("address", b !! "address"); ("avatar", b !! "avatar");
                                 ("role", role); ("status", status);
                                 ("_id", Some (VId newId))])])))
        end
    end.

(** ** GET /admin/orders, GET /orders/my-orders, GET /orders/requests *)

Definition admin_orders (req : Request Token) : Route :=
  withToken req (λ user, withRole "admin" user (λ s,
    (s, Data 200 (BDocs (find [] (orders (core s))))))).

Definition orders_my_orders (req : Request Token) : Route :=
  withToken req (λ user, withRole "user" user (λ s,
    let orders := find [("userEmail", bson (user !! "email"))] (orders (core s)) in
    (s, Data 200 (BObj [("success", BVal (VBool true)); ("orders", BDocs orders)])))).


(** ** POST /requests, PUT /requests/:id/approve, PUT /requests/:id/reject *)

Definition inserted_id (newId : string) (d : Doc) : Json :=
  JVal (default (VId newId) (with_id newId d !! "_id")).

Definition requests_post (now newId : string) (req : Request Token) : Route :=
  withToken req (λ user, withRole "user" user (λ s,
    let request := bson_doc (body req)
      [("userEmail", user !! "email");
       ("requestStatus", Some (VStr "pending"));
       ("requestTime", Some (VStr now))] in
    match insertOne_unique newId request (requests s) with
    | None => (s, fail 500 "Failed to create request")
    | Some rs => (set_requests s rs, ok [("insertedId", inserted_id newId request)])
    end)).

(** [draw] is [Math.floor(1000 + Math.random() * 9000)]. *)
Definition requests_approve (now : string) (draw : Z) (req : Request Token) : Route :=
  withToken req (λ user, withRole "admin" user (λ s,
    match ObjectId_new (params_id req) with
    | None => (s, fail 500 "Failed to approve request")
    | Some oid =>
        match findOne [("_id", VId oid)] (requests s) with
        | None => (s, fail 404 "Request not found")
        | Some request =>
            let us :=
              if decide (request !! "requestType" = Some (VStr "chef")) then
                let chefId := "chef-" +:+ pretty draw in
                (updateOne [("email", bson (request !! "userEmail"))]
                           [("role", VStr "chef"); ("chefId", VStr chefId)]
                           (users (core s))).1
              else if decide (request !! "requestType" = Some (VStr "admin")) then
                (updateOne [("email", bson (request !! "userEmail"))]
                           [("role", VStr "admin")]
                           (users (core s))).1
              else users (core s) in
            let rs :=
              (updateOne [("_id", VId oid)]
                         [("requestStatus", VStr "approved"); ("approvedAt", VStr now)]
                         (requests s)).1 in
            (set_requests (set_users s us) rs,
             ok [("message", JVal (VStr "Request approved successfully"))])
        end
    end)).

Definition requests_reject (now : string) (req : Request Token) : Route :=
  withToken req (λ user, withRole "admin" user (λ s,
    match ObjectId_new (params_id req) with
    | None => (s, fail 500 "Failed to reject request")
    | Some oid =>
        let updated :=
          updateOne [("_id", VId oid)]
                    [("requestStatus", VStr "rejected"); ("rejectedAt", VStr now)]
                    (requests s) in
        (set_requests s updated.1,
         ok [("message", JVal (VStr "Request rejected"));
             ("modifiedCount", JVal (VNum (Z.of_nat (modifiedCount updated.2))))])
    end)).

(** ** POST /favorites, GET /favorites, DELETE /favorites/:mealId

    The route parameter of the DELETE is read from [params_id]. *)

Definition favorites_post (now newId : string) (req : Request Token) : Route :=
  withToken req (λ user s,
    let mealId := body req !! "mealId" in
    let mealName := body req !! "mealName" in
    let foodName := body req !! "foodName" in
    let chefId := body req !! "chefId" in
    let chefName := body req !! "chefName" in
    let price := body req !! "price" in
    let foodImage := body req !! "foodImage" in
    let userEmail := user !! "email" in
    let finalMealName := js_or mealName foodName in
    if negb (truthy mealId) || negb (truthy finalMealName) || negb (truthy chefId)
       || negb (truthy chefName) || negb (truthy price) || negb (truthy foodImage)
    then (s, fail 400 "Missing required fields")
    else
      match findOne [("mealId", bson mealId); ("userEmail", bson userEmail)]
                    (favorites s) with
      | Some existing => (s, fail 400 "Meal already in favorites")
      | None =>
          let newFavorite := bson_doc ∅
            [("userEmail", userEmail); ("mealId", mealId);
             ("mealName", finalMealName); ("chefId", chefId);
             ("chefName", chefName); ("price", price);
             ("foodImage", foodImage); ("addedTime", Some (VStr now))] in
          match insertOne_unique newId newFavorite (favorites s) with
          | None => (s, fail 500 "Failed to add favorite")
          | Some fs => (set_favorites s fs, ok [("insertedId", JVal (VId newId))])
          end
      end).

Definition favorites_get (req : Request Token) : Route :=
  withToken req (λ user s,
    let favorites := find [("userEmail", bson (user !! "email"))] (favorites s) in
    (s, Data 200 (BObj [("success", BVal (VBool true));
                        ("favorites", BDocs favorites);
                        ("totalFavorites", BVal (VNum (Z.of_nat (length favorites))))]))).

Definition favorites_delete (req : Request Token) : Route :=
  withToken req (λ user s,
    let deleted :=
      deleteOne [("mealId", VStr (params_id req)); ("userEmail", bson (user !! "email"))]
                (favorites s) in
    if (deleted.2 =? 0)%nat then (s, fail 404 "Favorite not found")
    else (set_favorites s deleted.1,
          ok [("deletedCount", JVal (VNum (Z.of_nat deleted.2)))])).

(** ** POST /meals, DELETE /meals/:id, GET /meals *)

Definition meals_post (now newId : string) (req : Request Token) : Route :=
  withToken req (λ user, withRole "chef" user (λ s,
    let meal := bson_doc (body req)
      [("chefEmail", user !! "email"); ("createdAt", Some (VDate now))] in
    match insertOne_unique newId meal (meals s) with
    | None => (s, fail 500 "Failed to add meal")
    | Some ms => (set_meals s ms, ok [("insertedId", inserted_id newId meal)])
    end)).

Definition meals_delete (req : Request Token) : Route :=
  withToken req (λ user, withRole "chef" user (λ s,
    match ObjectId_new (params_id req) with
    | None => (s, fail 500 "Failed to delete meal")
    | Some oid =>
        match findOne [("_id", VId oid)] (meals s) with
        | None => (s, fail 404 "Meal not found")
        | Some meal =>
            if negb (js_strict_eq (meal !! "chefEmail") (user !! "email"))
            then (s, fail 403 "Forbidden: You can only delete your own meals")
            else
              let deleted := deleteOne [("_id", VId oid)] (meals s) in
              (set_meals s deleted.1,
               ok [("deletedCount", JVal (VNum (Z.of_nat deleted.2)))])
        end
    end)).

(** [find().skip(skip).limit(limit).toArray()] *)
Definition page_of (skip limit : Z) (coll : list Doc) : option (list Doc) :=
  if ((0 <=? skip) && (0 <? limit))%Z
  then Some (take (Z.to_nat limit) (drop (Z.to_nat skip) coll))
  else cursor_irregular skip limit coll.

Definition meals_get (pageParam limitParam : option string) : Route :=
  λ s,
    let page := or_num (parseInt pageParam) 1 in
    let limit := or_num (parseInt limitParam) 10 in
    let skip := ((page - 1) * limit)%Z in
    let totalMeals := Z.of_nat (length (meals s)) in
    match page_of skip limit (meals s) with
    | None => (s, fail 500 "Failed to fetch meals")
    | Some found =>
        (s, Data 200 (BObj [("meals", BDocs found);
                            ("totalMeals", BVal (VNum totalMeals));
                            ("totalPages", BVal (VNum (ceil_div totalMeals limit)));
                            ("currentPage", BVal (VNum page))]))
    end.

(** ** POST /reviews *)

(** The number a value is compared as. *)
Definition to_number (x : JsVal) : option Z :=
  match x with
  | Some (VNum n) => Some n
  | Some (VStr s) => ToNumber s
  | Some (VBool b) => Some (if b then 1 else 0)%Z
  | Some VNull => Some 0%Z
  | Some (VId _) | Some (VDate _) | None => None
  end.

Definition reviews_post (now newId : string) (req : Request Token) : Route :=
  withToken req (λ user s,
    let foodId := body req !! "foodId" in
    let rating := body req !! "rating" in
    let comment := body req !! "comment" in
    if negb (truthy foodId) || negb (truthy rating) || negb (truthy comment)
    then (s, fail 400 "Missing required fields")
    else if js_lt (to_number rating) (Some 1%Z) || js_lt (Some 5%Z) (to_number rating)
    then (s, fail 400 "Rating must be between 1 and 5")
    else
      let newReview := bson_doc ∅
        [("foodId", foodId);
         ("reviewerName", js_or (user !! "name") (Some (VStr "Anonymous")));
         ("reviewerEmail", user !! "email");
         ("reviewerImage", js_or (user !! "avatar") (Some VNull));
         ("rating", rating); ("comment", comment);
         ("date", Some (VStr now))] in
      match insertOne_unique newId newReview (reviews s) with
      | None => (s, fail 500 "Failed to submit review")
      | Some rs => (set_reviews s rs, ok [("insertedId", JVal (VId newId))])
      end).

End Site.

Arguments Plain {Token}.
Arguments Data {Token}.
Arguments fail {Token}.
Arguments ok {Token}.

(** ** Vocabulary of the statements on the other routes *)

(** The e-mail a user document is found by. *)
Definition email_of (d : Doc) : Value := default VNull (d !! "email").

(** The user document a registration stores, before its [_id]. *)
Definition new_user (b : Doc) : Doc :=
  bson_doc ∅
    [("name", b !! "name"); ("email", b !! "email");
     ("address", b !! "address"); ("avatar", b !! "avatar");
     ("role", js_or (b !! "role") (Some (VStr "user")));
     ("status", js_or (b !! "status") (Some (VStr "active")))].

(** The check of POST /orders and the order it stores. *)
Definition complete_order (b : Doc) : bool :=
  truthy (b !! "mealId") && truthy (js_or (b !! "mealName") (b !! "foodName"))
  && truthy (b !! "chefId") && truthy (b !! "chefName") && truthy (b !! "price").

Definition placed_order (now newId : string) (b user : Doc) : Doc :=
  <["_id" := VId newId]>
    (bson_doc ∅
       [("mealId", b !! "mealId");
        ("mealName", js_or (b !! "mealName") (b !! "foodName"));
        ("chefId", b !! "chefId"); ("chefName", b !! "chefName");
        ("price", b !! "price"); ("userEmail", user !! "email");
        ("orderStatus", Some (VStr "pending"));
        ("paymentStatus", Some (VStr "Pending"));
        ("orderTime", Some (VStr now))]).


(** The pair a favourite is found by. *)
Definition favorite_key (d : Doc) : Value * Value :=
  (default VNull (d !! "mealId"), default VNull (d !! "userEmail")).

(** The favourite POST /favorites stores, before its [_id]. *)
Definition new_favorite (now : string) (b user : Doc) : Doc :=
  bson_doc ∅
    [("userEmail", user !! "email"); ("mealId", b !! "mealId");
     ("mealName", js_or (b !! "mealName") (b !! "foodName"));
     ("chefId", b !! "chefId"); ("chefName", b !! "chefName");
     ("price", b !! "price"); ("foodImage", b !! "foodImage");
     ("addedTime", Some (VStr now))].

(** The review POST /reviews stores, before its [_id]. *)
Definition new_review (now : string) (b user : Doc) : Doc :=
  bson_doc ∅
    [("foodId", b !! "foodId");
     ("reviewerName", js_or (user !! "name") (Some (VStr "Anonymous")));
     ("reviewerEmail", user !! "email");
     ("reviewerImage", js_or (user !! "avatar") (Some VNull));
     ("rating", b !! "rating"); ("comment", b !! "comment");
     ("date", Some (VStr now))].

(** The documents of a [Data] reply, under the key [k] when the reply is
    an object. *)
Definition listed {Token} (k : string) (r : Response Token) : list Doc :=
  match r with
  | Data _ (BDocs ds) => ds
  | Data _ (BObj fields) =>
      match List.find (λ kv, String.eqb kv.1 k) fields with
      | Some (_, BDocs ds) => ds
      | _ => []
      end
  | _ => []
  end.

(** ** Test data for the other routes *)

Module Demo.

Definition parseInt (x : option string) : option Z :=
  if decide (x = Some "1") then Some 1%Z
  else if decide (x = Some "2") then Some 2%Z
  else if decide (x = Some "3") then Some 3%Z
  else if decide (x = Some "0") then Some 0%Z
  else None.

Definition cursor_irregular (skip limit : Z) (coll : list Doc) : option (list Doc) := None.

Definition site (db : DB) : Store :=
  {| core := db; meals := []; reviews := []; favorites := []; requests := [] |}.

Definition anonymous (b : Doc) : Request Doc :=
  {| cookie_token := None; params_id := ""; body := b |}.

Definition token_in (r : Response Doc) : Doc :=
  match r with Plain (Cookie_reply token _) => token | _ => ∅ end.
Definition json_in (r : Response Doc) : Json :=
  match r with Plain (Cookie_reply _ reply) => reply | _ => JVal VNull end.

(** Somebody registers as an administrator. *)
Definition admin_id : string := "64b7f0c2a1d3e4f5a6b7c8ad".
Definition admin_body : Doc :=
  {[ "name" := VStr "Root"; "email" := VStr "root@x.com"; "role" := VStr "admin" ]}.
Definition registered : Store * Response Doc :=
  auth_register Doc Fixture.jwt_sign admin_id (anonymous admin_body) (site Fixture.placed).
Definition admin : Doc := token_in registered.2.

(** The customer asks to become a chef, and names another e-mail. *)
Definition request_id : string := "64b7f0c2a1d3e4f5a6b7c8b0".
Definition request_body : Doc :=
  {[ "requestType" := VStr "chef"; "userEmail" := VStr "chef@x.com";
     "requestStatus" := VStr "approved" ]}.
Definition filed : Store :=
  (requests_post Doc Fixture.jwt_verify Fixture.t0 request_id
     (Fixture.as_ Fixture.customer "" request_body) registered.1).1.
Definition the_request (s : Store) : Doc := default ∅ (head (requests s)).

Definition approve (now : string) (draw : Z) : Route Doc :=
  requests_approve Doc Fixture.jwt_verify Fixture.ObjectId_new now draw
    (Fixture.as_ admin request_id ∅).

(** The chef's catalogue: three meals. *)
Definition meal_body (name : string) : Doc :=
  {[ "name" := VStr name; "price" := VNum 20; "chefEmail" := VStr "other@x.com" ]}.
Definition meal_id (n : string) : string := "64b7f0c2a1d3e4f5a6b7c9a" +:+ n.
Definition add_meal (n name : string) (s : Store) : Store :=
  (meals_post Doc Fixture.jwt_verify Fixture.t0 (meal_id n)
     (Fixture.as_ Fixture.chef "" (meal_body name)) s).1.
Definition catalogue : Store :=
  add_meal "3" "Bhuna" (add_meal "2" "Pitha" (add_meal "1" "Khichuri" (site Fixture.placed))).

Definition favourite_body : Doc :=
  {[ "mealId" := VStr "m1"; "mealName" := VStr "Khichuri"; "chefId" := VStr "chef-1234";
     "chefName" := VStr "Rina"; "price" := VNum 20; "foodImage" := VStr "khichuri.png" ]}.
Definition favourite_id : string := "64b7f0c2a1d3e4f5a6b7c8f0".

Definition review_body (rating : Value) : Doc :=
  {[ "foodId" := VStr "m1"; "rating" := rating; "comment" := VStr "Very good" ]}.
Definition review_id : string := "64b7f0c2a1d3e4f5a6b7c8f1".

Definition page (n : nat) : option string :=
  match n with 1%nat => Some "1" | 2%nat => Some "2" | 3%nat => Some "3" | _ => None end.

End Demo.

(** * Properties *)

(** ** The update primitive *)

Lemma updateOne_none q fields coll :
  Forall (λ d, matches q d = false) coll →
  updateOne q fields coll = (coll, {| matchedCount := 0; modifiedCount := 0 |}).
Proof.
  induction 1 as [|d rest Hd _ IH]; simpl; [done|].
  by rewrite Hd, IH.
Qed.

Lemma updateOne_split q fields pre d post :
  Forall (λ x, matches q x = false) pre →
  matches q d = true →
  updateOne q fields (pre ++ d :: post) =
    (pre ++ apply_set fields d :: post,
     {| matchedCount := 1;
        modifiedCount := if decide (apply_set fields d = d) then 0 else 1 |}).
Proof.
  intros Hpre Hd. induction Hpre as [|x pre Hx _ IH]; simpl.
  - by rewrite Hd.
  - by rewrite Hx, IH.
Qed.




(** A second update through the same filter overrides the first one, when
    the first one does not touch what the filter reads and the second one
    writes every field the first one wrote. *)
Lemma updateOne_twice q f1 f2 coll :
  (∀ d, matches q (apply_set f1 d) = matches q d) →
  (∀ d, apply_set f2 (apply_set f1 d) = apply_set f2 d) →
  (updateOne q f2 (updateOne q f1 coll).1).1 = (updateOne q f2 coll).1.
Proof.
  intros Hq Hf. induction coll as [|x rest IH]; [done|].
  simpl. destruct (matches q x) eqn:Hx; simpl.
  - by rewrite Hq, Hx, Hf.
  - by rewrite Hx, IH.
Qed.

Lemma field_is_str d k s : field_is d k (Some (VStr s)) ↔ d !! k = Some (VStr s).
Proof. unfold field_is, field_matches; simpl. by rewrite bool_decide_eq_true. Qed.



Lemma matches_two d k1 v1 k2 x :
  matches [(k1, v1); (k2, bson x)] d = true ↔
  field_matches d (k1, v1) = true ∧ field_is d k2 x.
Proof.
  unfold matches, field_is; simpl. rewrite !andb_true_iff. tauto.
Qed.

Lemma field_matches_id d k hex :
  field_matches d (k, VId hex) = true ↔ d !! k = Some (VId hex).
Proof. unfold field_matches; simpl. by rewrite bool_decide_eq_true. Qed.

Lemma matches_one d k v :
  v ≠ VNull → matches [(k, v)] d = true ↔ d !! k = Some v.
Proof.
  intros Hv. unfold matches, field_matches; simpl. rewrite andb_true_r.
  destruct v; try done; by rewrite bool_decide_eq_true.
Qed.

Lemma not_matches_one d k v :
  v ≠ VNull → d !! k ≠ Some v → matches [(k, v)] d = false.
Proof.
  intros Hv Hd. apply not_true_is_false. by rewrite matches_one.
Qed.

Lemma Forall_not_matches_one (coll : list Doc) k v :
  v ≠ VNull → Forall (λ d, d !! k ≠ Some v) coll →
  Forall (λ d, matches [(k, v)] d = false) coll.
Proof.
  intros Hv H. eapply Forall_impl; [done|]. intros d. by apply not_matches_one.
Qed.


Lemma DB_eq (a b : DB) :
  users a = users b → orders a = orders b → payments a = payments b → a = b.
Proof. destruct a, b; simpl; congruence. Qed.






(** ** The reconciliation handler *)

Section Reconciliation.

Context {Token : Type} (ObjectId_new : string → option string).
Context {Payload : Type} (constructEvent : Payload → option string → string + StripeEvent).

#[local] Abbreviation webhook := (payments_webhook Token ObjectId_new Payload constructEvent).


(** C4. A webhook request whose payload fails signature verification is
    answered with HTTP 400 and leaves the store as it was: no Payment and
    no Order is written. *)
Theorem webhook_bad_signature now payload sig msg db :
  constructEvent payload sig = inl msg →
  webhook now payload sig db = (db, Send_reply 400 ("Webhook Error: " +:+ msg)).
Proof. intros Hev. unfold payments_webhook. by rewrite Hev. Qed.




End Reconciliation.

(** ** The order routes *)

Section Lifecycle.

Context {Token : Type} (jwt_verify : Token → option Doc).
Context (ObjectId_new : string → option string).

#[local] Abbreviation call := (run_call jwt_verify ObjectId_new).

(** A request that passes the token, role and identifier checks runs the
    route's update; any other request leaves the store alone. *)
Lemma run_call_authorized op now req token user oid db :
  cookie_token req = Some token →
  jwt_verify token = Some user →
  user !! "role" = Some (VStr (op_role op)) →
  ObjectId_new (params_id req) = Some oid →
  call {| call_op := op; call_now := now; call_req := req |} db =
    let updated := updateOne (op_filter op oid user) (op_fields op now) (orders db) in
    (set_orders db updated.1, modified updated.2).
Proof.
  intros Htok Hver Hrole Hoid.
  destruct op; unfold run_call; simpl;
    unfold orders_cancel, orders_accept, orders_reject, verifyToken, verifyRole;
    rewrite Htok, Hver, decide_True, Hoid by done; done.
Qed.







Lemma set_orders_same db : set_orders db (orders db) = db.
Proof. by destruct db. Qed.

Lemma op_filter_matches op oid user o :
  matches (op_filter op oid user) o = true ↔
  o !! "_id" = Some (VId oid) ∧ field_is o (op_owner op).1 (user !! (op_owner op).2).
Proof. unfold op_filter. by rewrite matches_two, field_matches_id. Qed.

(** The three routes have one shape: the first order that has the
    identifier of the request and belongs to the requester is rewritten,
    in whatever status it is. *)
Lemma transition_spec op now req token user oid db :
  cookie_token req = Some token →
  jwt_verify token = Some user →
  user !! "role" = Some (VStr (op_role op)) →
  ObjectId_new (params_id req) = Some oid →
  let out := call {| call_op := op; call_now := now; call_req := req |} db in
  let mine (o : Doc) :=
    o !! "_id" = Some (VId oid) ∧ field_is o (op_owner op).1 (user !! (op_owner op).2) in
  let moved (o : Doc) :=
    <[op_stamp op := VStr now]> (<["orderStatus" := VStr (op_status op)]> o) in
  users out.1 = users db ∧ payments out.1 = payments db ∧
  (Forall (λ o, ¬ mine o) (orders db) →
   out = (db, modified {| matchedCount := 0; modifiedCount := 0 |})) ∧
  (∀ pre o post,
     orders db = pre ++ o :: post → Forall (λ x, ¬ mine x) pre → mine o →
     orders out.1 = pre ++ moved o :: post ∧
     out.2 = modified {| matchedCount := 1;
                         modifiedCount := if decide (moved o = o) then 0 else 1 |} ∧
     (o !! "orderStatus" ≠ Some (VStr (op_status op)) → moved o ≠ o)).
Proof.
  intros Htok Hver Hrole Hoid out mine moved.
  assert (Hout := run_call_authorized op now req token user oid db Htok Hver Hrole Hoid).
  fold out in Hout. simpl in Hout.
  assert (Hnot : ∀ l, Forall (λ o, ¬ mine o) l →
                      Forall (λ o, matches (op_filter op oid user) o = false) l).
  { intros l Hl. eapply Forall_impl; [exact Hl|]. intros o Ho.
    apply not_true_is_false. by rewrite op_filter_matches. }
  split_and!.
  - by rewrite Hout.
  - by rewrite Hout.
  - intros Hall. rewrite Hout, updateOne_none by auto. simpl.
    by rewrite set_orders_same.
  - intros pre o post Hsplit Hpre Ho.
    rewrite Hout, Hsplit, updateOne_split; [| by auto | by apply op_filter_matches].
    split_and!; [done|done|].
    intros Hst Heq. apply Hst. rewrite <- Heq. unfold moved.
    rewrite lookup_insert_ne by (by destruct op). by rewrite lookup_insert_eq.
Qed.

(** C6, amended. cancel has no precondition on orderStatus and raises no
    NotFound, Forbidden or InvalidState error. For a request with a valid
    token of role user and a well-formed identifier, the first order
    whose _id is the identifier and whose userEmail is the requester's
    email gets orderStatus cancelled and cancelledAt set to the current
    time, whatever its orderStatus was, and the reply is
    [{success: true, modifiedCount}] with modifiedCount 1 unless the
    document was left as it is; when no such order is stored (absent, or
    owned by somebody else) the store is unchanged and the reply is
    [{success: true, modifiedCount: 0}]. *)
Theorem cancel_matches_owner_in_any_state now req token user oid db :
  cookie_token req = Some token →
  jwt_verify token = Some user →
  user !! "role" = Some (VStr "user") →
  ObjectId_new (params_id req) = Some oid →
  let out := orders_cancel Token jwt_verify ObjectId_new now req db in
  let mine (o : Doc) :=
    o !! "_id" = Some (VId oid) ∧ field_is o "userEmail" (user !! "email") in
  let cancelled (o : Doc) :=
    <["cancelledAt" := VStr now]> (<["orderStatus" := VStr "cancelled"]> o) in
  users out.1 = users db ∧ payments out.1 = payments db ∧
  (Forall (λ o, ¬ mine o) (orders db) →
   out = (db, modified {| matchedCount := 0; modifiedCount := 0 |})) ∧
  (∀ pre o post,
     orders db = pre ++ o :: post → Forall (λ x, ¬ mine x) pre → mine o →
     orders out.1 = pre ++ cancelled o :: post ∧
     out.2 = modified {| matchedCount := 1;
                         modifiedCount := if decide (cancelled o = o) then 0 else 1 |} ∧
     (o !! "orderStatus" ≠ Some (VStr "cancelled") → cancelled o ≠ o)).
Proof. intros Htok Hver Hrole Hoid. exact (transition_spec Cancel now req token user oid db Htok Hver Hrole Hoid). Qed.

(** C7, amended. accept and reject have no precondition on orderStatus
    and raise no NotFound, Forbidden or InvalidState error. For a request
    with a valid token of role chef and a well-formed identifier, the
    first order whose _id is the identifier and whose chefId satisfies
    the filter on the token's chefId claim gets orderStatus accepted
    (rejected) and acceptedAt (rejectedAt) set to the current time,
    whatever its orderStatus was, and the reply is
    [{success: true, modifiedCount}]; when no such order is stored the
    store is unchanged and the reply is [{success: true, modifiedCount: 0}]. *)
Theorem accept_reject_match_chef_in_any_state now req token user oid db :
  cookie_token req = Some token →
  jwt_verify token = Some user →
  user !! "role" = Some (VStr "chef") →
  ObjectId_new (params_id req) = Some oid →
  let mine (o : Doc) :=
    o !! "_id" = Some (VId oid) ∧ field_is o "chefId" (user !! "chefId") in
  let moved (status stamp : string) (o : Doc) :=
    <[stamp := VStr now]> (<["orderStatus" := VStr status]> o) in
  let spec (out : DB * Reply Token) (status stamp : string) :=
    users out.1 = users db ∧ payments out.1 = payments db ∧
    (Forall (λ o, ¬ mine o) (orders db) →
     out = (db, modified {| matchedCount := 0; modifiedCount := 0 |})) ∧
    (∀ pre o post,
       orders db = pre ++ o :: post → Forall (λ x, ¬ mine x) pre → mine o →
       orders out.1 = pre ++ moved status stamp o :: post ∧
       out.2 = modified {| matchedCount := 1;
                           modifiedCount :=
                             if decide (moved status stamp o = o) then 0 else 1 |} ∧
       (o !! "orderStatus" ≠ Some (VStr status) → moved status stamp o ≠ o)) in
  spec (orders_accept Token jwt_verify ObjectId_new now req db) "accepted" "acceptedAt" ∧
  spec (orders_reject Token jwt_verify ObjectId_new now req db) "rejected" "rejectedAt".
Proof.
  intros Htok Hver Hrole Hoid. split.
  - exact (transition_spec Accept now req token user oid db Htok Hver Hrole Hoid).
  - exact (transition_spec Reject now req token user oid db Htok Hver Hrole Hoid).
Qed.


End Lifecycle.


(** ** Tokens issued at login *)

Section Tokens.

Context {Token : Type} (jwt_sign : Doc → Token) (jwt_verify : Token → option Doc).
Context (ObjectId_new : string → option string).

Lemma json_doc_lookup_other (fields : list (string * JsVal)) k :
  k ∉ fields.*1 → json_doc fields !! k = None.
Proof.
  unfold json_doc. generalize (∅ : Doc) (lookup_empty (M:=gmap string) (A:=Value) k).
  induction fields as [|[k' x] fields IH]; intros base Hbase Hk; [done|].
  rewrite fmap_cons, not_elem_of_cons in Hk. destruct Hk as [Hne Hk].
  cbn [fold_left]. apply IH; [|done]. cbn [fst] in Hne.
  assert (k' ≠ k) by congruence.
  destruct x; cbn [fst snd]; by rewrite ?lookup_insert_ne, ?lookup_delete_ne.
Qed.

Lemma login_payload_keys user k :
  k ≠ "email" → k ≠ "role" → k ≠ "id" → login_payload user !! k = None.
Proof.
  intros H1 H2 H3. unfold login_payload. apply json_doc_lookup_other.
  cbn [fmap list_fmap fst]. rewrite !not_elem_of_cons. split_and!; try done.
  apply not_elem_of_nil.
Qed.

Lemma auth_login_token req db token reply :
  (auth_login Token jwt_sign req db).2 = Cookie_reply token reply →
  ∃ user, token = jwt_sign (login_payload user).
Proof.
  unfold auth_login. destruct (findOne _ _) as [user|]; simpl; [|done].
  intros [= <- _]. by exists user.
Qed.



End Tokens.

(** ** Placing an order and opening a checkout *)

Section Placement.

Context {Token : Type} (jwt_verify : Token → option Doc).
Context (ToNumber : string → option Z).
Context (stripe_sessions_create : SessionParams → option Session).

Ltac lookup_fields :=
  repeat (rewrite lookup_insert_eq || (rewrite lookup_insert_ne by done)).

Lemma truthy_bson x : truthy x = true → Some (bson x) = x.
Proof. by destruct x as [[]|]. Qed.

(** C8, amended. placeOrder checks that mealId, mealName (or foodName),
    chefId, chefName and price are present and truthy; price only has to
    be different from zero, so a negative price passes. When the check
    fails the reply is HTTP 400 and nothing is written. When it passes, an
    Order is appended with the fields of the request, the requester's
    email, orderStatus pending, paymentStatus Pending and orderTime set to
    the current time. *)
Theorem place_order_checks_presence now newId req token user db :
  cookie_token req = Some token →
  jwt_verify token = Some user →
  user !! "role" = Some (VStr "user") →
  let b := body req in
  let out := orders_post Token jwt_verify now newId req db in
  let mealName := js_or (b !! "mealName") (b !! "foodName") in
  let complete :=
    truthy (b !! "mealId") && truthy mealName && truthy (b !! "chefId")
    && truthy (b !! "chefName") && truthy (b !! "price") in
  users out.1 = users db ∧ payments out.1 = payments db ∧
  (∀ n, b !! "price" = Some (VNum n) → truthy (b !! "price") = negb (n =? 0)%Z) ∧
  (complete = false → out = (db, message 400 "Missing required fields")) ∧
  (complete = true →
   ∃ order,
     orders out.1 = orders db ++ [order] ∧
     out.2 = Json_reply 200 (JObj [("success", JVal (VBool true));
                                   ("insertedId", JVal (VId newId))]) ∧
     order !! "_id" = Some (VId newId) ∧
     order !! "orderStatus" = Some (VStr "pending") ∧
     order !! "paymentStatus" = Some (VStr "Pending") ∧
     order !! "orderTime" = Some (VStr now) ∧
     order !! "userEmail" = Some (bson (user !! "email")) ∧
     order !! "mealId" = b !! "mealId" ∧
     order !! "mealName" = mealName ∧
     order !! "chefId" = b !! "chefId" ∧
     order !! "chefName" = b !! "chefName" ∧
     order !! "price" = b !! "price").
Proof.
  intros Htok Hver Hrole b out mealName complete.
  assert (Hout : out =
    if complete then
      (set_orders db (insertOne newId (bson_doc ∅
          [("mealId", b !! "mealId"); ("mealName", mealName); ("chefId", b !! "chefId");
           ("chefName", b !! "chefName"); ("price", b !! "price");
           ("userEmail", user !! "email");
           ("orderStatus", Some (VStr "pending"));
           ("paymentStatus", Some (VStr "Pending"));
           ("orderTime", Some (VStr now))]) (orders db)),
       Json_reply 200 (JObj [("success", JVal (VBool true));
                             ("insertedId", JVal (VId newId))]))
    else (db, message 400 "Missing required fields")).
  { subst out. unfold orders_post, verifyToken, verifyRole.
    rewrite Htok, Hver, decide_True by done.
    subst complete mealName b.
    destruct (truthy (body req !! "mealId")),
             (truthy (js_or (body req !! "mealName") (body req !! "foodName"))),
             (truthy (body req !! "chefId")), (truthy (body req !! "chefName")),
             (truthy (body req !! "price")); done. }
  split_and!.
  - rewrite Hout. by destruct complete.
  - rewrite Hout. by destruct complete.
  - by intros n ->.
  - intros Hc. by rewrite Hout, Hc.
  - intros Hc. rewrite Hout, Hc.
    subst complete. rewrite !andb_true_iff in Hc.
    destruct Hc as ((((H1 & H2) & H3) & H4) & H5).
    eexists. split; [reflexivity|]. split; [done|].
    unfold bson_doc. cbn [fold_left fst snd].
    rewrite !lookup_insert_ne by done. rewrite lookup_empty.
    split_and!; lookup_fields; first [done | by apply truthy_bson].
Qed.


End Placement.

(** * Scenarios *)

Lemma Fixture_jwt_faithful p u :
  Fixture.jwt_verify (Fixture.jwt_sign p) = Some u →
  ∀ k, k ≠ "iat" → k ≠ "exp" → u !! k = p !! k.
Proof.
  intros [= <-] k Hiat Hexp. unfold Fixture.jwt_sign. by rewrite !lookup_insert_ne.
Qed.

(** Witness of C4: a forged signature on the settlement of the checked-out
    order. *)
Lemma webhook_bad_signature_witness :
  let db := Fixture.checked_out Fixture.placed in
  Fixture.constructEvent Fixture.settlement Fixture.forged =
    inl "No signatures found matching the expected signature for payload" ∧
  Fixture.webhook Fixture.t1 Fixture.settlement Fixture.forged db =
    (db, Send_reply 400
           "Webhook Error: No signatures found matching the expected signature for payload").
Proof.
  split; [reflexivity|].
  apply (webhook_bad_signature (Token:=Doc) Fixture.ObjectId_new Fixture.constructEvent).
  reflexivity.
Defined.







(** C6 as stated fails: the order was accepted (by its settlement), the
    customer cancels it afterwards, and the cancellation goes through; and
    a cancellation that names no stored order is answered as a success. *)
Lemma cancel_overrides_accepted_order :
  let db := Fixture.settled in
  let cancel id := orders_cancel Doc Fixture.jwt_verify Fixture.ObjectId_new Fixture.t2
                     (Fixture.as_ Fixture.customer id ∅) db in
  Fixture.order_field db "orderStatus" = Some (VStr "accepted") ∧
  (cancel Fixture.order_id).2 = modified {| matchedCount := 1; modifiedCount := 1 |} ∧
  Fixture.order_field (cancel Fixture.order_id).1 "orderStatus" = Some (VStr "cancelled") ∧
  Fixture.order_field (cancel Fixture.order_id).1 "cancelledAt" = Some (VStr Fixture.t2) ∧
  cancel "64b7f0c2a1d3e4f5a6b7c8ff" =
    (db, modified {| matchedCount := 0; modifiedCount := 0 |}).
Proof. cbv zeta. split_and!; vm_compute; reflexivity. Qed.

Lemma cancel_matches_owner_in_any_state_witness :
  let db := Fixture.settled in
  let out := orders_cancel Doc Fixture.jwt_verify Fixture.ObjectId_new Fixture.t2
               (Fixture.as_ Fixture.customer Fixture.order_id ∅) db in
  Fixture.order_field db "orderStatus" = Some (VStr "accepted") ∧
  orders out.1 =
    [] ++ <["cancelledAt" := VStr Fixture.t2]>
            (<["orderStatus" := VStr "cancelled"]> (Fixture.the_order db)) :: [].
Proof.
  intros db out. split; [vm_compute; reflexivity|].
  destruct (cancel_matches_owner_in_any_state Fixture.jwt_verify Fixture.ObjectId_new
              Fixture.t2 (Fixture.as_ Fixture.customer Fixture.order_id ∅)
              Fixture.customer Fixture.customer Fixture.order_id db)
    as (_ & _ & _ & H); [reflexivity | reflexivity | vm_compute; reflexivity
                        | vm_compute; reflexivity |].
  destruct (H [] (Fixture.the_order db) []) as [H1 _].
  - vm_compute; reflexivity.
  - constructor.
  - split; vm_compute; reflexivity.
  - exact H1.
Defined.

(** C7 as stated fails: an order without chefId, already cancelled by its
    customer, is accepted, and likewise rejected, by a chef who logged in. *)
Lemma accept_and_reject_override_cancelled_order :
  let db := (Fixture.call (Fixture.cancel Fixture.t1) Fixture.placed_without_chef).1 in
  let accepted := orders_accept Doc Fixture.jwt_verify Fixture.ObjectId_new Fixture.t2
                    (Fixture.as_ Fixture.chef Fixture.order_id ∅) db in
  let rejected := orders_reject Doc Fixture.jwt_verify Fixture.ObjectId_new Fixture.t2
                    (Fixture.as_ Fixture.chef Fixture.order_id ∅) db in
  Fixture.order_field db "orderStatus" = Some (VStr "cancelled") ∧
  Fixture.order_field db "chefId" = None ∧
  accepted.2 = modified {| matchedCount := 1; modifiedCount := 1 |} ∧
  Fixture.order_field accepted.1 "orderStatus" = Some (VStr "accepted") ∧
  rejected.2 = modified {| matchedCount := 1; modifiedCount := 1 |} ∧
  Fixture.order_field rejected.1 "orderStatus" = Some (VStr "rejected").
Proof. cbv zeta. split_and!; vm_compute; reflexivity. Qed.

Lemma accept_reject_match_chef_in_any_state_witness :
  let db := (Fixture.call (Fixture.cancel Fixture.t1) Fixture.placed_without_chef).1 in
  let req := Fixture.as_ Fixture.chef Fixture.order_id ∅ in
  orders (orders_accept Doc Fixture.jwt_verify Fixture.ObjectId_new Fixture.t2 req db).1 =
    [] ++ <["acceptedAt" := VStr Fixture.t2]>
            (<["orderStatus" := VStr "accepted"]> (Fixture.the_order db)) :: [] ∧
  orders (orders_reject Doc Fixture.jwt_verify Fixture.ObjectId_new Fixture.t2 req db).1 =
    [] ++ <["rejectedAt" := VStr Fixture.t2]>
            (<["orderStatus" := VStr "rejected"]> (Fixture.the_order db)) :: [].
Proof.
  intros db req.
  destruct (accept_reject_match_chef_in_any_state Fixture.jwt_verify Fixture.ObjectId_new
              Fixture.t2 req Fixture.chef Fixture.chef Fixture.order_id db)
    as [(_ & _ & _ & Ha) (_ & _ & _ & Hr)];
    [reflexivity | reflexivity | vm_compute; reflexivity | vm_compute; reflexivity |].
  assert (Hsplit : orders db = [] ++ Fixture.the_order db :: []) by (vm_compute; reflexivity).
  assert (Hmine : Fixture.the_order db !! "_id" = Some (VId Fixture.order_id) ∧
                  field_is (Fixture.the_order db) "chefId" (Fixture.chef !! "chefId"))
    by (split; vm_compute; reflexivity).
  split.
  - apply (Ha [] _ [] Hsplit); [constructor | exact Hmine].
  - apply (Hr [] _ [] Hsplit); [constructor | exact Hmine].
Defined.



(** C8 as stated fails: for the order of the specification's scenario the
    paymentStatus written is Pending, not unpaid; and an order with a
    negative price is accepted and stored. *)
Lemma place_order_writes_Pending_and_takes_negative_price :
  let place price := orders_post Doc Fixture.jwt_verify Fixture.t0 Fixture.order_id
                       (Fixture.as_ Fixture.customer "" (Fixture.order_body price))
                       Fixture.empty_db in
  (Fixture.order_field (place 20%Z).1 "orderStatus" = Some (VStr "pending") ∧
   Fixture.order_field (place 20%Z).1 "paymentStatus" = Some (VStr "Pending") ∧
   Fixture.order_field (place 20%Z).1 "paymentStatus" ≠ Some (VStr "unpaid")) ∧
  ((place (-5)%Z).2 = Json_reply 200 (JObj [("success", JVal (VBool true));
                                            ("insertedId", JVal (VId Fixture.order_id))]) ∧
   length (orders (place (-5)%Z).1) = 1%nat ∧
   Fixture.order_field (place (-5)%Z).1 "price" = Some (VNum (-5))).
Proof. cbv zeta. split_and!; vm_compute; (reflexivity || discriminate). Qed.

Lemma place_order_checks_presence_witness :
  let out := orders_post Doc Fixture.jwt_verify Fixture.t0 Fixture.order_id
               (Fixture.as_ Fixture.customer "" (Fixture.order_body 20)) Fixture.empty_db in
  ∃ order,
    orders out.1 = orders Fixture.empty_db ++ [order] ∧
    order !! "orderStatus" = Some (VStr "pending") ∧
    order !! "paymentStatus" = Some (VStr "Pending") ∧
    order !! "orderTime" = Some (VStr Fixture.t0) ∧
    order !! "price" = Some (VNum 20).
Proof.
  intros out.
  destruct (place_order_checks_presence Fixture.jwt_verify Fixture.t0 Fixture.order_id
              (Fixture.as_ Fixture.customer "" (Fixture.order_body 20))
              Fixture.customer Fixture.customer Fixture.empty_db)
    as (_ & _ & _ & _ & H); [reflexivity | reflexivity | vm_compute; reflexivity |].
  destruct H as (order & H1 & _ & _ & H2 & H3 & H4 & _ & _ & _ & _ & _ & H5).
  { vm_compute; reflexivity. }
  exists order. split_and!; [exact H1 | exact H2 | exact H3 | exact H4 |].
  rewrite H5. vm_compute; reflexivity.
Defined.





(** * Properties of the other routes *)

(** ** The store primitives *)

Ltac lookup_json :=
  repeat first [ rewrite lookup_insert_eq | rewrite lookup_delete_eq
               | rewrite lookup_insert_ne by done
               | rewrite lookup_delete_ne by done
               | rewrite lookup_empty ].


Lemma field_matches_default d k v :
  field_matches d (k, v) = true ↔ default VNull (d !! k) = v.
Proof.
  unfold field_matches; simpl.
  destruct v; rewrite bool_decide_eq_true; destruct (d !! k) as [[]|]; simpl;
    intuition congruence.
Qed.

Lemma findOne_None q coll :
  findOne q coll = None ↔ Forall (λ d, matches q d = false) coll.
Proof.
  unfold findOne. induction coll as [|d rest IH]; simpl.
  - split; [constructor | done].
  - destruct (matches q d) eqn:Hd.
    + split; [done|]. intros H. apply Forall_cons in H as [H _]. congruence.
    + rewrite IH. split; [by constructor | by intros [_ ?]%Forall_cons].
Qed.

Lemma findOne_Some q coll d :
  findOne q coll = Some d →
  ∃ pre post, coll = pre ++ d :: post ∧
              Forall (λ x, matches q x = false) pre ∧ matches q d = true.
Proof.
  unfold findOne. induction coll as [|x rest IH]; simpl; [done|].
  destruct (matches q x) eqn:Hx.
  - intros [= <-]. exists [], rest. by split_and!.
  - intros H. destruct (IH H) as (pre & post & -> & Hpre & Hd).
    exists (x :: pre), post. split_and!; [done| by constructor | done].
Qed.

Lemma findOne_split q pre d post :
  Forall (λ x, matches q x = false) pre → matches q d = true →
  findOne q (pre ++ d :: post) = Some d.
Proof.
  unfold findOne. intros Hpre Hd. induction Hpre as [|x pre Hx _ IH]; simpl.
  - by rewrite Hd.
  - by rewrite Hx.
Qed.

Lemma with_id_lookup newId d k : k ≠ "_id" → with_id newId d !! k = d !! k.
Proof.
  intros Hk. unfold with_id. destruct (d !! "_id") as [[]|]; try done;
    by rewrite lookup_insert_ne.
Qed.

Lemma insertOne_unique_Some newId d coll us :
  insertOne_unique newId d coll = Some us → us = coll ++ [with_id newId d].
Proof. unfold insertOne_unique. case_match; [done|]. by intros [= <-]. Qed.

Lemma insertOne_unique_fresh newId d coll :
  d !! "_id" = None →
  Forall (λ x, x !! "_id" ≠ Some (VId newId)) coll →
  insertOne_unique newId d coll = Some (coll ++ [<["_id" := VId newId]> d]).
Proof.
  intros Hd Hfresh. unfold insertOne_unique, with_id. rewrite Hd.
  rewrite lookup_insert_eq.
  replace (existsb _ coll) with false; [done|].
  symmetry. apply not_true_is_false. rewrite existsb_exists.
  intros (x & Hx & Heq). apply bool_decide_eq_true in Heq.
  rewrite Forall_forall in Hfresh. apply (Hfresh x); [|done].
  by apply list_elem_of_In.
Qed.

Lemma find_all coll : find [] coll = coll.
Proof. unfold find. induction coll; simpl; congruence. Qed.

Lemma elem_of_find q coll d : d ∈ find q coll ↔ d ∈ coll ∧ matches q d = true.
Proof. unfold find. by rewrite !list_elem_of_In, filter_In. Qed.

Lemma find_app q l k : find q (l ++ k) = find q l ++ find q k.
Proof. unfold find. apply List.filter_app. Qed.

(** ** The middleware on the whole store *)

Section Middleware.

Context {Token : Type} (jwt_verify : Token → option Doc).

(** [withToken] and [withRole] are [verifyToken] and [verifyRole]. *)
Lemma withToken_lift req (next : Doc → Handler Token) s :
  withToken Token jwt_verify req (λ user, lift Token (next user)) s =
  lift Token (verifyToken Token jwt_verify req next) s.
Proof.
  unfold withToken, verifyToken, lift, fail.
  destruct (cookie_token req) as [token|]; [|by destruct s].
  destruct (jwt_verify token); [done | by destruct s].
Qed.

Lemma withRole_lift role user (next : Handler Token) s :
  withRole Token role user (lift Token next) s =
  lift Token (verifyRole Token role user next) s.
Proof.
  unfold withRole, verifyRole, lift, fail. case_decide; [done | by destruct s].
Qed.

End Middleware.

(** ** Accounts: POST /auth/register, POST /auth/login, GET /admin/orders *)

Section Accounts.

Context {Token : Type} (jwt_sign : Doc → Token) (jwt_verify : Token → option Doc).

#[local] Abbreviation register := (auth_register Token jwt_sign).

Lemma email_filter_matches (x : JsVal) d :
  matches [("email", bson x)] d = true ↔ email_of d = bson x.
Proof.
  unfold matches; simpl. rewrite andb_true_r. apply field_matches_default.
Qed.

Lemma new_user_lookup b :
  new_user b !! "_id" = None ∧
  new_user b !! "email" = Some (bson (b !! "email")) ∧
  new_user b !! "role" = Some (bson (js_or (b !! "role") (Some (VStr "user")))).
Proof.
  unfold new_user, bson_doc. cbn [fold_left fst snd]. split_and!.
  - rewrite !lookup_insert_ne by done. apply lookup_empty.
  - rewrite !(lookup_insert_ne _ "status"), !(lookup_insert_ne _ "role"),
      !(lookup_insert_ne _ "avatar"), !(lookup_insert_ne _ "address") by done.
    by rewrite lookup_insert_eq.
  - rewrite !(lookup_insert_ne _ "status") by done. by rewrite lookup_insert_eq.
Qed.

Lemma login_payload_lookup user :
  login_payload user !! "email" = user !! "email" ∧
  login_payload user !! "role" = user !! "role" ∧
  login_payload user !! "id" = id_claim (user !! "_id").
Proof.
  unfold login_payload, json_doc. cbn [fold_left fst snd].
  destruct (user !! "email"), (user !! "role"), (id_claim (user !! "_id"));
    split_and!; by lookup_json.
Qed.

(** The three outcomes of a registration. *)
Lemma register_cases newId req s :
  (register newId req s).1 = s ∧
    (∀ token reply, (register newId req s).2 ≠ Plain (Cookie_reply token reply))
  ∨
  Forall (λ u, email_of u ≠ bson (body req !! "email")) (users (core s)) ∧
  (register newId req s).1 =
    set_users s (users (core s) ++ [<["_id" := VId newId]> (new_user (body req))]) ∧
  ∃ reply, (register newId req s).2 =
             Plain (Cookie_reply (jwt_sign (register_payload (body req))) reply).
Proof.
  unfold auth_register. fold (new_user (body req)).
  destruct (findOne _ (users (core s))) as [u|] eqn:Hfind; [by left|].
  destruct (insertOne_unique _ _ _) as [us|] eqn:Hins; [|by left].
  right. apply insertOne_unique_Some in Hins as ->.
  apply findOne_None in Hfind. split_and!.
  - eapply Forall_impl; [exact Hfind|]. intros u Hu He.
    apply email_filter_matches in He. congruence.
  - unfold with_id. by rewrite (proj1 (new_user_lookup _)).
  - eauto.
Qed.

(** X1. Registration keeps e-mails unique: when no two stored users have
    the same e-mail (a missing e-mail counting as null), that is still so
    after any POST /auth/register. *)
Theorem register_keeps_emails_unique newId req s :
  NoDup (email_of <$> users (core s)) →
  NoDup (email_of <$> users (core (register newId req s).1)).
Proof.
  intros Hnd.
  destruct (register_cases newId req s) as [[-> _] | (Hnew & -> & _)]; [done|].
  simpl. rewrite fmap_app. apply NoDup_app. split_and!; [done| |].
  - intros v Hv Hin. apply list_elem_of_singleton in Hin. subst v.
    apply list_elem_of_fmap in Hv as (u & Heq & Hu).
    rewrite Forall_forall in Hnew. apply (Hnew u Hu). rewrite <- Heq.
    unfold email_of. rewrite lookup_insert_ne by done.
    by rewrite (proj1 (proj2 (new_user_lookup _))).
  - apply NoDup_singleton.
Qed.

Lemma register_payload_role b :
  register_payload b !! "role" = js_or (b !! "role") (Some (VStr "user")).
Proof.
  unfold register_payload, json_doc. cbn [fold_left fst snd].
  destruct (js_or (b !! "role") (Some (VStr "user"))) as [v|] eqn:Hr.
  - by rewrite lookup_insert_eq.
  - by rewrite lookup_delete_eq.
Qed.

(** X2. The role of a new account is the one the request names: whoever
    registers with role admin gets a token that GET /admin/orders accepts,
    and is answered with every stored order. ([jwt_verify] is assumed to
    return the claims that were signed, up to iat and exp.) *)
Theorem self_registered_admin_reads_all_orders newId req s token reply claims req' s' :
  (∀ p u, jwt_verify (jwt_sign p) = Some u →
          ∀ k, k ≠ "iat" → k ≠ "exp" → u !! k = p !! k) →
  body req !! "role" = Some (VStr "admin") →
  (register newId req s).2 = Plain (Cookie_reply token reply) →
  jwt_verify token = Some claims →
  cookie_token req' = Some token →
  (∃ user, user ∈ users (core (register newId req s).1) ∧
           user !! "_id" = Some (VId newId) ∧ user !! "role" = Some (VStr "admin")) ∧
  admin_orders Token jwt_verify req' s' = (s', Data 200 (BDocs (orders (core s')))).
Proof.
  intros Hjwt Hrole Hreply Hver Hcookie.
  destruct (register_cases newId req s) as [[_ Hno] | (_ & Hs & reply' & Hr)].
  { by destruct (Hno token reply). }
  rewrite Hr in Hreply. injection Hreply as <- _. split.
  - exists (<["_id" := VId newId]> (new_user (body req))). split_and!.
    + rewrite Hs. simpl. apply elem_of_app. right. by apply list_elem_of_singleton.
    + by rewrite lookup_insert_eq.
    + rewrite lookup_insert_ne by done.
      rewrite (proj2 (proj2 (new_user_lookup _))). by rewrite Hrole.
  - unfold admin_orders, withToken, withRole. rewrite Hcookie, Hver.
    rewrite decide_True; [by rewrite find_all|].
    rewrite (Hjwt _ _ Hver) by done. by rewrite register_payload_role, Hrole.
Qed.

(** X3. After a registration that succeeded, POST /auth/login with the
    same e-mail finds the new account: it sets a token whose claims are
    the e-mail and the role of the registration and the identifier of the
    new user. *)
Theorem register_then_login newId req s token reply login_req :
  (register newId req s).2 = Plain (Cookie_reply token reply) →
  body login_req !! "email" = body req !! "email" →
  let db := core (register newId req s).1 in
  ∃ user reply',
    user ∈ users db ∧
    auth_login Token jwt_sign login_req db =
      (db, Cookie_reply (jwt_sign (login_payload user)) reply') ∧
    login_payload user !! "email" = Some (bson (body req !! "email")) ∧
    login_payload user !! "role" =
      js_or (body req !! "role") (Some (VStr "user")) ∧
    login_payload user !! "id" = Some (VStr newId).
Proof.
  intros Hreply Hemail db.
  destruct (register_cases newId req s) as [[_ Hno] | (Hnew & Hs & _)].
  { by destruct (Hno token reply). }
  set (user := <["_id" := VId newId]> (new_user (body req))) in *.
  destruct (new_user_lookup (body req)) as (_ & He & Hr).
  assert (Hfind : findOne [("email", bson (body login_req !! "email"))] (users db) = Some user).
  { subst db. rewrite Hs, Hemail. simpl.
    change (users (core s) ++ [user]) with (users (core s) ++ user :: []).
    apply findOne_split.
    - eapply Forall_impl; [exact Hnew|]. intros u Hu.
      apply not_true_is_false. by rewrite email_filter_matches.
    - apply email_filter_matches. unfold email_of, user.
      rewrite lookup_insert_ne by done. by rewrite He. }
  assert (Hid : user !! "_id" = Some (VId newId)) by apply lookup_insert_eq.
  assert (He' : user !! "email" = Some (bson (body req !! "email"))).
  { unfold user. by rewrite lookup_insert_ne. }
  assert (Hr' : user !! "role" = Some (bson (js_or (body req !! "role") (Some (VStr "user"))))).
  { unfold user. by rewrite lookup_insert_ne. }
  destruct (login_payload_lookup user) as (Hpe & Hpr & Hpi).
  exists user. eexists. split_and!.
  - subst db. rewrite Hs. simpl. apply elem_of_app. right.
    by apply list_elem_of_singleton.
  - unfold auth_login. rewrite Hfind. reflexivity.
  - by rewrite Hpe.
  - rewrite Hpr, Hr'. apply truthy_bson. unfold js_or.
    by destruct (truthy (body req !! "role")) eqn:Ht.
  - by rewrite Hpi, Hid.
Qed.


End Accounts.


(** ** Orders, from placement to settlement *)

Section Orders.

Context {Token : Type} (jwt_verify : Token → option Doc).
Context (ObjectId_new : string → option string).

#[local] Abbreviation place := (orders_post Token jwt_verify).
#[local] Abbreviation my_orders := (orders_my_orders Token jwt_verify).

Lemma orders_post_stores now newId req token user db :
  cookie_token req = Some token →
  jwt_verify token = Some user →
  user !! "role" = Some (VStr "user") →
  complete_order (body req) = true →
  place now newId req db =
    (set_orders db (orders db ++ [placed_order now newId (body req) user]),
     Json_reply 200 (JObj [("success", JVal (VBool true));
                           ("insertedId", JVal (VId newId))])).
Proof.
  intros Htok Hver Hrole Hc.
  unfold orders_post, verifyToken, verifyRole. rewrite Htok, Hver, decide_True by done.
  unfold complete_order in Hc. rewrite !andb_true_iff in Hc.
  destruct Hc as ((((-> & ->) & ->) & ->) & ->). cbn [negb orb].
  unfold insertOne, placed_order, bson_doc. cbn [fold_left fst snd].
  rewrite !lookup_insert_ne by done. by rewrite lookup_empty.
Qed.

Lemma placed_order_lookup now newId b user :
  placed_order now newId b user !! "_id" = Some (VId newId) ∧
  placed_order now newId b user !! "userEmail" = Some (bson (user !! "email")) ∧
  placed_order now newId b user !! "chefId" = Some (bson (b !! "chefId")) ∧
  placed_order now newId b user !! "orderStatus" = Some (VStr "pending").
Proof.
  unfold placed_order, bson_doc. cbn [fold_left fst snd]. split_and!; by lookup_json.
Qed.

Lemma userEmail_filter_matches (x : JsVal) d :
  matches [("userEmail", bson x)] d = true ↔ default VNull (d !! "userEmail") = bson x.
Proof.
  unfold matches; simpl. rewrite andb_true_r. apply field_matches_default.
Qed.

Lemma my_orders_cases req' s :
  (my_orders req' s).1 = s ∧
  (listed "orders" (my_orders req' s).2 = [] ∨
   ∃ token user, cookie_token req' = Some token ∧ jwt_verify token = Some user ∧
     listed "orders" (my_orders req' s).2 =
       find [("userEmail", bson (user !! "email"))] (orders (core s))).
Proof.
  unfold orders_my_orders, withToken, withRole.
  destruct (cookie_token req') as [token|]; [|by split; [|left]].
  destruct (jwt_verify token) as [user|] eqn:Hver; [|by split; [|left]].
  case_decide; [|by split; [|left]].
  split; [done|]. right. by exists token, user.
Qed.

(** X5. GET /orders/my-orders never writes and lists only orders whose
    userEmail is the requester's e-mail. An order placed through POST
    /orders is listed to the customer who placed it, after the customer's
    earlier orders, and to nobody whose e-mail differs. *)
Theorem placed_order_is_listed_to_its_customer_only now newId req token user db req' s :
  cookie_token req = Some token →
  jwt_verify token = Some user →
  user !! "role" = Some (VStr "user") →
  complete_order (body req) = true →
  core s = (place now newId req db).1 →
  let order := placed_order now newId (body req) user in
  (my_orders req' s).1 = s ∧
  (cookie_token req' = Some token →
   listed "orders" (my_orders req' s).2 =
     find [("userEmail", bson (user !! "email"))] (orders db) ++ [order]) ∧
  (∀ token' other,
     cookie_token req' = Some token' → jwt_verify token' = Some other →
     Forall (λ o, field_is o "userEmail" (other !! "email"))
            (listed "orders" (my_orders req' s).2) ∧
     (bson (other !! "email") ≠ bson (user !! "email") →
      order ∉ listed "orders" (my_orders req' s).2)).
Proof.
  intros Htok Hver Hrole Hc Hs order.
  rewrite (orders_post_stores now newId req token user db Htok Hver Hrole Hc) in Hs.
  fold order in Hs. simpl in Hs.
  destruct (placed_order_lookup now newId (body req) user) as (_ & Hmail & _).
  fold order in Hmail.
  split_and!.
  - apply my_orders_cases.
  - intros Hcookie. unfold orders_my_orders, withToken, withRole.
    rewrite Hcookie, Hver, decide_True by done. cbn [listed List.find fst snd].
    rewrite Hs. cbn [set_orders orders]. rewrite find_app. f_equal.
    unfold find. cbn [List.filter].
    replace (matches [("userEmail", bson (user !! "email"))] order) with true; [done|].
    symmetry. apply userEmail_filter_matches. by rewrite Hmail.
  - intros token' other Hcookie' Hver'.
    destruct (my_orders_cases req' s) as [_ [-> | (t & u & Ht & Hu & ->)]].
    { split; [apply Forall_nil_2 | intros _; apply not_elem_of_nil]. }
    rewrite Hcookie' in Ht. injection Ht as <-. rewrite Hver' in Hu. injection Hu as <-.
    split.
    + apply Forall_forall. intros o Ho. apply elem_of_find in Ho as [_ Ho].
      unfold field_is. unfold matches in Ho; simpl in Ho. by rewrite andb_true_r in Ho.
    + intros Hne Hin. apply elem_of_find in Hin as [_ Hm].
      apply userEmail_filter_matches in Hm. rewrite Hmail in Hm. simpl in Hm. congruence.
Qed.

(** X7. An order placed through POST /orders can be cancelled by the
    customer who placed it: with the identifier of the order, PUT
    /orders/:id/cancel sets it to cancelled and reports modifiedCount 1.
    (The identifier is not yet taken when the order is placed.) *)
Theorem placed_order_can_be_cancelled now newId req token user db now' req' :
  cookie_token req = Some token →
  jwt_verify token = Some user →
  user !! "role" = Some (VStr "user") →
  complete_order (body req) = true →
  Forall (λ o, o !! "_id" ≠ Some (VId newId)) (orders db) →
  cookie_token req' = Some token →
  ObjectId_new (params_id req') = Some newId →
  orders_cancel Token jwt_verify ObjectId_new now' req' (place now newId req db).1 =
    (set_orders db
       (orders db ++
          [<["cancelledAt" := VStr now']>
             (<["orderStatus" := VStr "cancelled"]>
                (placed_order now newId (body req) user))]),
     modified {| matchedCount := 1; modifiedCount := 1 |}).
Proof.
  intros Htok Hver Hrole Hc Hfresh Htok' Hoid.
  rewrite (orders_post_stores now newId req token user db Htok Hver Hrole Hc). simpl.
  destruct (placed_order_lookup now newId (body req) user) as (Hid & Hmail & _ & Hst).
  set (order := placed_order now newId (body req) user) in *.
  pose proof (run_call_authorized jwt_verify ObjectId_new Cancel now' req' token user newId
                (set_orders db (orders db ++ [order])) Htok' Hver Hrole Hoid) as Hrun.
  unfold run_call in Hrun; simpl in Hrun. rewrite Hrun. clear Hrun.
  change (orders db ++ [order]) with (orders db ++ order :: []).
  rewrite updateOne_split.
  - simpl. rewrite decide_False; [done|].
    intros Heq. apply (f_equal (λ d : Doc, d !! "orderStatus")) in Heq.
    rewrite lookup_insert_ne, lookup_insert_eq, Hst in Heq by done. discriminate.
  - eapply Forall_impl; [exact Hfresh|]. intros o Ho.
    apply not_true_is_false. rewrite (op_filter_matches Cancel).
    intros [Hid' _]. by apply Ho.
  - apply (op_filter_matches Cancel). split; [done|].
    unfold field_is. apply field_matches_default. simpl. by rewrite Hmail.
Qed.

End Orders.

Section Settlement.

Context {Token : Type} (jwt_sign : Doc → Token) (jwt_verify : Token → option Doc).
Context (ObjectId_new : string → option string) (ToNumber : string → option Z).
Context (stripe_sessions_create : SessionParams → option Session).
Context {Payload : Type} (constructEvent : Payload → option string → string + StripeEvent).

#[local] Abbreviation checkout :=
  (payments_create_payment Token jwt_verify ToNumber stripe_sessions_create).
#[local] Abbreviation webhook := (payments_webhook Token ObjectId_new Payload constructEvent).






End Settlement.

(** ** More store primitives *)

Lemma deleteOne_cases q coll :
  (Forall (λ d, matches q d = false) coll ∧ deleteOne q coll = (coll, 0%nat)) ∨
  ∃ pre d post,
    coll = pre ++ d :: post ∧ Forall (λ x, matches q x = false) pre ∧
    matches q d = true ∧ deleteOne q coll = (pre ++ post, 1%nat).
Proof.
  induction coll as [|x rest IH]; simpl.
  - left. split; [apply Forall_nil_2 | done].
  - destruct (matches q x) eqn:Hx.
    + right. exists [], x, rest. split_and!; [done | apply Forall_nil_2 | done | done].
    + destruct IH as [[Hall ->] | (pre & d & post & -> & Hpre & Hd & ->)].
      * left. split; [by apply Forall_cons | done].
      * right. exists (x :: pre), d, post.
        split_and!; [done | by apply Forall_cons | done | done].
Qed.

Lemma deleteOne_split q pre d post :
  Forall (λ x, matches q x = false) pre → matches q d = true →
  deleteOne q (pre ++ d :: post) = (pre ++ post, 1%nat).
Proof.
  intros Hpre Hd. induction Hpre as [|x pre Hx _ IH]; simpl.
  - by rewrite Hd.
  - by rewrite Hx, IH.
Qed.

Lemma findOne_updateOne q fields coll :
  (∀ d, matches q (apply_set fields d) = matches q d) →
  findOne q (updateOne q fields coll).1 = apply_set fields <$> findOne q coll.
Proof.
  intros Hq. unfold findOne. induction coll as [|x rest IH]; [done|].
  simpl. destruct (matches q x) eqn:Hx; simpl.
  - by rewrite Hq, Hx.
  - by rewrite Hx.
Qed.

Lemma Store_eq (a b : Store) :
  core a = core b → meals a = meals b → reviews a = reviews b →
  favorites a = favorites b → requests a = requests b → a = b.
Proof. destruct a, b; simpl; congruence. Qed.

(** ** Role requests: POST /requests, PUT /requests/:id/approve, /reject *)

Section RoleRequests.

Context {Token : Type} (jwt_verify : Token → option Doc).
Context (ObjectId_new : string → option string).

#[local] Abbreviation file := (requests_post Token jwt_verify).
#[local] Abbreviation approve := (requests_approve Token jwt_verify ObjectId_new).
#[local] Abbreviation reject := (requests_reject Token jwt_verify ObjectId_new).

(** X10. A role request is filed under the requester: whatever the body
    of POST /requests says, the request that is stored has the e-mail of
    the token as userEmail and pending as requestStatus, and takes its
    other fields from the body; nothing else is written. When the body has
    no _id and the generated one is free, the request is stored. *)
Theorem request_is_filed_under_the_requester now newId req token user s :
  cookie_token req = Some token →
  jwt_verify token = Some user →
  user !! "role" = Some (VStr "user") →
  let out := file now newId req s in
  (out.1 = s ∨
   ∃ r, out.1 = set_requests s (requests s ++ [r]) ∧
        r !! "userEmail" = Some (bson (user !! "email")) ∧
        r !! "requestStatus" = Some (VStr "pending") ∧
        r !! "requestTime" = Some (VStr now) ∧
        ∀ k, k ∉ ["userEmail"; "requestStatus"; "requestTime"; "_id"] →
             r !! k = body req !! k) ∧
  (body req !! "_id" = None →
   Forall (λ x, x !! "_id" ≠ Some (VId newId)) (requests s) →
   out.1 ≠ s ∧ out.2 = ok [("insertedId", JVal (VId newId))]).
Proof.
  intros Htok Hver Hrole out. subst out.
  unfold requests_post, withToken, withRole. rewrite Htok, Hver, decide_True by done.
  set (request := bson_doc (body req) _).
  assert (Hreq : ∀ k, k ≠ "userEmail" → k ≠ "requestStatus" → k ≠ "requestTime" →
                      request !! k = body req !! k).
  { intros k H1 H2 H3. unfold request, bson_doc. cbn [fold_left fst snd].
    by rewrite !lookup_insert_ne. }
  split.
  - destruct (insertOne_unique newId request (requests s)) as [rs|] eqn:Hins; [|by left].
    apply insertOne_unique_Some in Hins as ->. right.
    exists (with_id newId request). split_and!; [done| | | |].
    + rewrite with_id_lookup by done. unfold request, bson_doc.
      cbn [fold_left fst snd]. by lookup_json.
    + rewrite with_id_lookup by done. unfold request, bson_doc.
      cbn [fold_left fst snd]. by lookup_json.
    + rewrite with_id_lookup by done. unfold request, bson_doc.
      cbn [fold_left fst snd]. by lookup_json.
    + intros k Hk. rewrite !not_elem_of_cons in Hk.
      destruct Hk as (H1 & H2 & H3 & H4 & _).
      rewrite with_id_lookup by done. by apply Hreq.
  - intros Hid Hfresh.
    rewrite insertOne_unique_fresh; [| by rewrite Hreq | done].
    split.
    + cbn [fst]. intros Heq. apply (f_equal (λ x, length (requests x))) in Heq.
      simpl in Heq. rewrite length_app in Heq. simpl in Heq. lia.
    + cbn [snd]. unfold inserted_id, with_id. rewrite Hreq, Hid by done.
      by rewrite lookup_insert_eq.
Qed.

Lemma approve_authorized now draw req token admin oid s :
  cookie_token req = Some token →
  jwt_verify token = Some admin →
  admin !! "role" = Some (VStr "admin") →
  ObjectId_new (params_id req) = Some oid →
  approve now draw req s =
    match findOne [("_id", VId oid)] (requests s) with
    | None => (s, fail 404 "Request not found")
    | Some request =>
        let us :=
          if decide (request !! "requestType" = Some (VStr "chef")) then
            (updateOne [("email", bson (request !! "userEmail"))]
                       [("role", VStr "chef"); ("chefId", VStr ("chef-" +:+ pretty draw))]
                       (users (core s))).1
          else if decide (request !! "requestType" = Some (VStr "admin")) then
            (updateOne [("email", bson (request !! "userEmail"))]
                       [("role", VStr "admin")] (users (core s))).1
          else users (core s) in
        (set_requests (set_users s us)
           (updateOne [("_id", VId oid)]
                      [("requestStatus", VStr "approved"); ("approvedAt", VStr now)]
                      (requests s)).1,
         ok [("message", JVal (VStr "Request approved successfully"))])
    end.
Proof.
  intros Htok Hver Hrole Hoid.
  unfold requests_approve, withToken, withRole.
  by rewrite Htok, Hver, decide_True, Hoid.
Qed.

Lemma approve_denied now draw req s :
  approve now draw req s = (s, (approve now draw req s).2) ∨
  ∃ token admin oid,
    cookie_token req = Some token ∧ jwt_verify token = Some admin ∧
    admin !! "role" = Some (VStr "admin") ∧ ObjectId_new (params_id req) = Some oid.
Proof.
  unfold requests_approve, withToken, withRole.
  destruct (cookie_token req) as [token|]; [|by left].
  destruct (jwt_verify token) as [admin|] eqn:Hver; [|by left].
  case_decide; [|by left].
  destruct (ObjectId_new (params_id req)) as [oid|] eqn:Hoid; [|by left].
  right. by exists token, admin, oid.
Qed.

(** X11. The approval of a chef request makes the requester a chef: the
    first user whose e-mail is the userEmail of the request gets role
    chef and chefId "chef-" followed by the number drawn, the request
    gets requestStatus approved and approvedAt, whatever its
    requestStatus was, and orders and payments are untouched. *)
Theorem approve_chef_request
    now draw req token admin oid pre r post upre u upost s :
  cookie_token req = Some token →
  jwt_verify token = Some admin →
  admin !! "role" = Some (VStr "admin") →
  ObjectId_new (params_id req) = Some oid →
  requests s = pre ++ r :: post →
  Forall (λ x, x !! "_id" ≠ Some (VId oid)) pre →
  r !! "_id" = Some (VId oid) →
  r !! "requestType" = Some (VStr "chef") →
  users (core s) = upre ++ u :: upost →
  Forall (λ x, email_of x ≠ bson (r !! "userEmail")) upre →
  email_of u = bson (r !! "userEmail") →
  let out := approve now draw req s in
  users (core out.1) =
    upre ++ <["chefId" := VStr ("chef-" +:+ pretty draw)]> (<["role" := VStr "chef"]> u)
         :: upost ∧
  requests out.1 =
    pre ++ <["approvedAt" := VStr now]> (<["requestStatus" := VStr "approved"]> r) :: post ∧
  orders (core out.1) = orders (core s) ∧
  payments (core out.1) = payments (core s) ∧
  out.2 = ok [("message", JVal (VStr "Request approved successfully"))].
Proof.
  intros Htok Hver Hrole Hoid Hreqs Hpre Hr Hty Hus Hupre Hu out. subst out.
  rewrite (approve_authorized now draw req token admin oid s Htok Hver Hrole Hoid).
  assert (Hfind : findOne [("_id", VId oid)] (requests s) = Some r).
  { rewrite Hreqs. apply findOne_split; [|by apply matches_one].
    by apply Forall_not_matches_one. }
  rewrite Hfind. rewrite decide_True by done. cbn [fst snd].
  split_and!; try done.
  - cbn [set_requests set_users set_core core users]. rewrite Hus.
    rewrite updateOne_split; [done| |by apply email_filter_matches].
    eapply Forall_impl; [exact Hupre|]. intros x Hx.
    apply not_true_is_false. by rewrite email_filter_matches.
  - cbn [set_requests requests]. rewrite Hreqs.
    rewrite updateOne_split; [done| |by apply matches_one].
    by apply Forall_not_matches_one.
Qed.

(** X12. Without a request of type chef or admin an approval grants
    nothing: when no request has the identifier, the reply is 404 and the
    store is unchanged; when the request found has another requestType,
    the request is marked approved and no user is changed. *)
Theorem approve_without_typed_request now draw req token admin oid s :
  cookie_token req = Some token →
  jwt_verify token = Some admin →
  admin !! "role" = Some (VStr "admin") →
  ObjectId_new (params_id req) = Some oid →
  let out := approve now draw req s in
  (Forall (λ x, x !! "_id" ≠ Some (VId oid)) (requests s) →
   out = (s, fail 404 "Request not found")) ∧
  (∀ pre r post,
     requests s = pre ++ r :: post →
     Forall (λ x, x !! "_id" ≠ Some (VId oid)) pre →
     r !! "_id" = Some (VId oid) →
     r !! "requestType" ≠ Some (VStr "chef") →
     r !! "requestType" ≠ Some (VStr "admin") →
     core out.1 = core s ∧
     requests out.1 =
       pre ++ <["approvedAt" := VStr now]> (<["requestStatus" := VStr "approved"]> r)
           :: post).
Proof.
  intros Htok Hver Hrole Hoid out. subst out.
  rewrite (approve_authorized now draw req token admin oid s Htok Hver Hrole Hoid).
  split.
  - intros Hnone.
    replace (findOne [("_id", VId oid)] (requests s)) with (@None Doc); [done|].
    symmetry. apply findOne_None. by apply Forall_not_matches_one.
  - intros pre r post Hreqs Hpre Hr Hchef Hadmin.
    assert (Hfind : findOne [("_id", VId oid)] (requests s) = Some r).
    { rewrite Hreqs. apply findOne_split; [|by apply matches_one].
      by apply Forall_not_matches_one. }
    rewrite Hfind. rewrite !decide_False by done. cbn [fst snd]. split.
    + cbn [set_requests set_users set_core core]. by destruct s as [[] ? ? ? ?].
    + cbn [set_requests requests]. rewrite Hreqs.
      rewrite updateOne_split; [done| |by apply matches_one].
      by apply Forall_not_matches_one.
Qed.

Lemma approved_fields_keep_filter now oid d :
  matches [("_id", VId oid)]
    (apply_set [("requestStatus", VStr "approved"); ("approvedAt", VStr now)] d) =
  matches [("_id", VId oid)] d.
Proof. unfold matches, field_matches; simpl. by rewrite !lookup_insert_ne. Qed.

Lemma email_filter_kept (x : JsVal) fields d :
  "email" ∉ fields.*1 →
  matches [("email", bson x)] (apply_set fields d) = matches [("email", bson x)] d.
Proof.
  intros Hk. unfold matches, field_matches; simpl.
  replace (apply_set fields d !! "email") with (d !! "email"); [done|].
  revert d. induction fields as [|[k v] fields IH]; intros d; [done|].
  rewrite fmap_cons, not_elem_of_cons in Hk. destruct Hk as [Hne Hk].
  simpl. rewrite <- IH by done. by rewrite lookup_insert_ne.
Qed.

(** X13. The last approval wins: approving a request again, with another
    draw and at another time, leaves the store that the second approval
    alone would leave. A chef request approved twice therefore leaves the
    user with the chefId of the second draw. *)
Theorem last_approval_wins t1 d1 t2 d2 req s :
  approve t2 d2 req (approve t1 d1 req s).1 = approve t2 d2 req s.
Proof.
  destruct (approve_denied t1 d1 req s) as [Heq | (token & admin & oid & Htok & Hver & Hrole & Hoid)].
  { by rewrite Heq. }
  rewrite !(approve_authorized _ _ req token admin oid _ Htok Hver Hrole Hoid).
  destruct (findOne [("_id", VId oid)] (requests s)) as [r|] eqn:Hfind;
    [|cbn [fst]; by rewrite Hfind].
  cbn [fst snd set_requests set_users set_core core users requests].
  rewrite findOne_updateOne by (intros; apply approved_fields_keep_filter).
  rewrite Hfind. cbn [fmap option_fmap option_map apply_set fold_left fst snd].
  rewrite !(lookup_insert_ne _ "approvedAt"), !(lookup_insert_ne _ "requestStatus") by done.
  f_equal. apply Store_eq; cbn [core meals reviews favorites requests set_requests
                                 set_users set_core]; try done.
  - apply DB_eq; cbn [users orders payments]; try done.
    repeat case_decide; try done.
    + apply updateOne_twice; intros d.
      * apply email_filter_kept. cbn. rewrite !not_elem_of_cons.
        split_and!; [done|done|apply not_elem_of_nil].
      * apply map_eq; intros k; simpl. rewrite !lookup_insert. by repeat case_decide.
    + apply updateOne_twice; intros d.
      * apply email_filter_kept. cbn. rewrite !not_elem_of_cons.
        split_and!; [done|apply not_elem_of_nil].
      * apply map_eq; intros k; simpl. rewrite !lookup_insert. by repeat case_decide.
  - apply updateOne_twice; intros d; [apply approved_fields_keep_filter|].
    apply map_eq; intros k; simpl. rewrite !lookup_insert. by repeat case_decide.
Qed.

(** X14. A rejection revokes nothing: PUT /requests/:id/reject writes the
    request only, so a role granted by an earlier approval stays; and it
    has no precondition on requestStatus, an approved request is marked
    rejected all the same. *)
Theorem reject_keeps_granted_roles now req s :
  let out := reject now req s in
  core out.1 = core s ∧ meals out.1 = meals s ∧ reviews out.1 = reviews s ∧
  favorites out.1 = favorites s ∧
  ∀ token admin oid pre r post,
    cookie_token req = Some token →
    jwt_verify token = Some admin →
    admin !! "role" = Some (VStr "admin") →
    ObjectId_new (params_id req) = Some oid →
    requests s = pre ++ r :: post →
    Forall (λ x, x !! "_id" ≠ Some (VId oid)) pre →
    r !! "_id" = Some (VId oid) →
    requests out.1 =
      pre ++ <["rejectedAt" := VStr now]> (<["requestStatus" := VStr "rejected"]> r) :: post.
Proof.
  intros out. subst out. unfold requests_reject, withToken, withRole.
  split_and!.
  1-4: destruct (cookie_token req) as [token|]; [|done];
       destruct (jwt_verify token) as [admin|]; [|done];
       case_decide; [|done];
       by destruct (ObjectId_new (params_id req)).
  intros token admin oid pre r post Htok Hver Hrole Hoid Hreqs Hpre Hr.
  rewrite Htok, Hver, decide_True, Hoid by done. cbn [fst set_requests requests].
  rewrite Hreqs, updateOne_split; [done| |by apply matches_one].
  by apply Forall_not_matches_one.
Qed.

End RoleRequests.

(** ** Favourites: POST /favorites, DELETE /favorites/:mealId *)

Section Favourites.

Context {Token : Type} (jwt_verify : Token → option Doc).

#[local] Abbreviation add := (favorites_post Token jwt_verify).
#[local] Abbreviation remove := (favorites_delete Token jwt_verify).

Lemma favorite_filter_matches (m e : Value) d :
  matches [("mealId", m); ("userEmail", e)] d = true ↔ favorite_key d = (m, e).
Proof.
  unfold matches, favorite_key; simpl. rewrite andb_true_r, andb_true_iff.
  rewrite !field_matches_default. split; [by intros [-> ->] | by intros [= -> ->]].
Qed.

Lemma new_favorite_lookup now b user :
  new_favorite now b user !! "_id" = None ∧
  favorite_key (new_favorite now b user) = (bson (b !! "mealId"), bson (user !! "email")).
Proof.
  unfold favorite_key, new_favorite, bson_doc. cbn [fold_left fst snd].
  split; by lookup_json.
Qed.

(** The outcomes of POST /favorites. *)
Lemma favorites_post_cases now newId req s :
  (add now newId req s).1 = s ∧
    (add now newId req s).2 ≠ ok [("insertedId", JVal (VId newId))]
  ∨
  ∃ token user,
    cookie_token req = Some token ∧ jwt_verify token = Some user ∧
    Forall (λ d, favorite_key d ≠ (bson (body req !! "mealId"), bson (user !! "email")))
           (favorites s) ∧
    add now newId req s =
      (set_favorites s (favorites s ++ [<["_id" := VId newId]> (new_favorite now (body req) user)]),
       ok [("insertedId", JVal (VId newId))]).
Proof.
  unfold favorites_post, withToken.
  destruct (cookie_token req) as [token|]; [|by left].
  destruct (jwt_verify token) as [user|] eqn:Hver; [|by left].
  fold (new_favorite now (body req) user).
  destruct (_ || _); [by left|].
  destruct (findOne _ (favorites s)) as [existing|] eqn:Hfind; [by left|].
  destruct (insertOne_unique _ _ _) as [fs|] eqn:Hins; [|by left].
  apply insertOne_unique_Some in Hins as ->. apply findOne_None in Hfind.
  right. exists token, user. split_and!; [done|done| |].
  - eapply Forall_impl; [exact Hfind|]. intros d Hd Hk.
    apply favorite_filter_matches in Hk. congruence.
  - unfold with_id. by rewrite (proj1 (new_favorite_lookup _ _ _)).
Qed.

(** X15. POST /favorites keeps favourites unique: when no two stored
    favourites have the same mealId and userEmail, that is still so after
    any POST /favorites. *)
Theorem favorites_stay_unique now newId req s :
  NoDup (favorite_key <$> favorites s) →
  NoDup (favorite_key <$> favorites (add now newId req s).1).
Proof.
  intros Hnd.
  destruct (favorites_post_cases now newId req s)
    as [[-> _] | (token & user & _ & _ & Hnew & ->)]; [done|].
  cbn [fst set_favorites favorites]. rewrite fmap_app. apply NoDup_app.
  split_and!; [done| |apply NoDup_singleton].
  intros key Hkey Hin. apply list_elem_of_singleton in Hin. subst key.
  apply list_elem_of_fmap in Hkey as (d & Heq & Hd).
  rewrite Forall_forall in Hnew. apply (Hnew d Hd). rewrite <- Heq.
  destruct (new_favorite_lookup now (body req) user) as [_ <-].
  unfold favorite_key. by rewrite !lookup_insert_ne.
Qed.

(** X16. A favourite that was added can be removed: after a POST
    /favorites that succeeded for a meal whose mealId is a string, DELETE
    /favorites/:mealId with that mealId and the same token restores the
    store and reports deletedCount 1. *)
Theorem favorite_added_then_removed now newId req token m s req' :
  cookie_token req = Some token →
  body req !! "mealId" = Some (VStr m) →
  (add now newId req s).2 = ok [("insertedId", JVal (VId newId))] →
  cookie_token req' = Some token →
  params_id req' = m →
  remove req' (add now newId req s).1 = (s, ok [("deletedCount", JVal (VNum 1))]).
Proof.
  intros Htok Hmeal Hok Htok' Hparam.
  destruct (favorites_post_cases now newId req s)
    as [[_ Hno] | (t & user & Ht & Hver & Hnew & Hadd)]; [done|].
  rewrite Htok in Ht. injection Ht as <-.
  rewrite Hadd. cbn [fst]. unfold favorites_delete, withToken.
  rewrite Htok', Hver, Hparam. cbn [set_favorites favorites].
  set (fav := <["_id" := VId newId]> (new_favorite now (body req) user)).
  change (favorites s ++ [fav]) with (favorites s ++ fav :: []).
  rewrite deleteOne_split.
  - cbn [fst snd Nat.eqb]. rewrite app_nil_r. f_equal. by destruct s.
  - eapply Forall_impl; [exact Hnew|]. intros d Hd.
    apply not_true_is_false. rewrite favorite_filter_matches. by rewrite Hmeal in Hd.
  - apply favorite_filter_matches.
    destruct (new_favorite_lookup now (body req) user) as [_ Hk].
    rewrite Hmeal in Hk. change (bson (Some (VStr m))) with (VStr m) in Hk.
    rewrite <- Hk. unfold favorite_key, fav.
    by rewrite !lookup_insert_ne.
Qed.

(** X17. DELETE /favorites/:mealId removes at most one favourite, and
    only one whose mealId is the string of the route and whose userEmail
    is the requester's e-mail: a favourite of another user, or one stored
    with a number as mealId, is never removed. When no favourite matches
    the reply is 404 and the store is unchanged. *)
Theorem favorites_delete_removes_one_own_favorite req s :
  let out := remove req s in
  out.1 = s ∨
  ∃ token user pre d post,
    cookie_token req = Some token ∧ jwt_verify token = Some user ∧
    favorites s = pre ++ d :: post ∧
    d !! "mealId" = Some (VStr (params_id req)) ∧
    field_is d "userEmail" (user !! "email") ∧
    Forall (λ x, ¬ (x !! "mealId" = Some (VStr (params_id req)) ∧
                    field_is x "userEmail" (user !! "email"))) pre ∧
    out = (set_favorites s (pre ++ post), ok [("deletedCount", JVal (VNum 1))]).
Proof.
  intros out. subst out. unfold favorites_delete, withToken.
  destruct (cookie_token req) as [token|]; [|by left].
  destruct (jwt_verify token) as [user|] eqn:Hver; [|by left].
  assert (Hm : ∀ x, matches [("mealId", VStr (params_id req));
                             ("userEmail", bson (user !! "email"))] x = true ↔
                    x !! "mealId" = Some (VStr (params_id req)) ∧
                    field_is x "userEmail" (user !! "email")).
  { intros x. unfold matches, field_is; simpl. rewrite andb_true_r, andb_true_iff.
    unfold field_matches at 1; simpl. by rewrite bool_decide_eq_true. }
  destruct (deleteOne_cases [("mealId", VStr (params_id req));
                             ("userEmail", bson (user !! "email"))] (favorites s))
    as [[_ ->] | (pre & d & post & Hsplit & Hpre & Hd & ->)]; [by left|].
  right. exists token, user, pre, d, post. cbn [fst snd Nat.eqb].
  apply Hm in Hd as [Hd1 Hd2]. split_and!; try done.
  eapply Forall_impl; [exact Hpre|]. intros x Hx Hx'. apply Hm in Hx'. congruence.
Qed.

End Favourites.

(** ** Meals: POST /meals, DELETE /meals/:id, GET /meals *)

Section Catalogue.

Context {Token : Type} (jwt_verify : Token → option Doc).
Context (ObjectId_new : string → option string).
Context (parseInt : option string → option Z).
Context (cursor_irregular : Z → Z → list Doc → option (list Doc)).

#[local] Abbreviation add_meal := (meals_post Token jwt_verify).
#[local] Abbreviation delete_meal := (meals_delete Token jwt_verify ObjectId_new).
#[local] Abbreviation get_meals := (meals_get Token parseInt cursor_irregular).

Lemma js_strict_eq_true a b : js_strict_eq a b = true → a = b.
Proof.
  unfold js_strict_eq. destruct a as [[]|]; try done; by intros ?%bool_decide_eq_true.
Qed.

(** X18. A meal is stored under the chef who adds it: whatever the body
    of POST /meals says, the meal that is stored has the e-mail of the
    token as chefEmail and the current time as createdAt, and takes its
    other fields from the body; nothing else is written. When the body has
    no _id and the generated one is free, the meal is stored. *)
Theorem meal_is_stored_under_its_chef now newId req token user s :
  cookie_token req = Some token →
  jwt_verify token = Some user →
  user !! "role" = Some (VStr "chef") →
  let out := add_meal now newId req s in
  (out.1 = s ∨
   ∃ meal, out.1 = set_meals s (meals s ++ [meal]) ∧
           meal !! "chefEmail" = Some (bson (user !! "email")) ∧
           meal !! "createdAt" = Some (VDate now) ∧
           ∀ k, k ∉ ["chefEmail"; "createdAt"; "_id"] → meal !! k = body req !! k) ∧
  (body req !! "_id" = None →
   Forall (λ x, x !! "_id" ≠ Some (VId newId)) (meals s) →
   out.1 ≠ s ∧ out.2 = ok [("insertedId", JVal (VId newId))]).
Proof.
  intros Htok Hver Hrole out. subst out.
  unfold meals_post, withToken, withRole. rewrite Htok, Hver, decide_True by done.
  set (meal := bson_doc (body req) _).
  assert (Hmeal : ∀ k, k ≠ "chefEmail" → k ≠ "createdAt" → meal !! k = body req !! k).
  { intros k H1 H2. unfold meal, bson_doc. cbn [fold_left fst snd].
    by rewrite !lookup_insert_ne. }
  split.
  - destruct (insertOne_unique newId meal (meals s)) as [ms|] eqn:Hins; [|by left].
    apply insertOne_unique_Some in Hins as ->. right.
    exists (with_id newId meal). split_and!; [done| | |].
    + rewrite with_id_lookup by done. unfold meal, bson_doc.
      cbn [fold_left fst snd]. by lookup_json.
    + rewrite with_id_lookup by done. unfold meal, bson_doc.
      cbn [fold_left fst snd]. by lookup_json.
    + intros k Hk. rewrite !not_elem_of_cons in Hk. destruct Hk as (H1 & H2 & H3 & _).
      rewrite with_id_lookup by done. by apply Hmeal.
  - intros Hid Hfresh.
    rewrite insertOne_unique_fresh; [| by rewrite Hmeal | done].
    split.
    + cbn [fst]. intros Heq. apply (f_equal (λ x, length (meals x))) in Heq.
      simpl in Heq. rewrite length_app in Heq. simpl in Heq. lia.
    + cbn [snd]. unfold inserted_id, with_id. rewrite Hmeal, Hid by done.
      by rewrite lookup_insert_eq.
Qed.

(** X19. DELETE /meals/:id removes at most one meal, and only a meal of
    the requester: the meal removed is the first one with the identifier
    of the route, and its chefEmail is the e-mail of the token. The meals
    of other chefs are never removed. *)
Theorem meals_delete_removes_one_own_meal req s :
  let out := delete_meal req s in
  out.1 = s ∨
  ∃ token user oid pre meal post,
    cookie_token req = Some token ∧ jwt_verify token = Some user ∧
    user !! "role" = Some (VStr "chef") ∧
    ObjectId_new (params_id req) = Some oid ∧
    meals s = pre ++ meal :: post ∧
    Forall (λ x, x !! "_id" ≠ Some (VId oid)) pre ∧
    meal !! "_id" = Some (VId oid) ∧
    meal !! "chefEmail" = user !! "email" ∧
    out = (set_meals s (pre ++ post), ok [("deletedCount", JVal (VNum 1))]).
Proof.
  intros out. subst out. unfold meals_delete, withToken, withRole.
  destruct (cookie_token req) as [token|]; [|by left].
  destruct (jwt_verify token) as [user|] eqn:Hver; [|by left].
  case_decide as Hrole; [|by left].
  destruct (ObjectId_new (params_id req)) as [oid|] eqn:Hoid; [|by left].
  destruct (findOne [("_id", VId oid)] (meals s)) as [meal|] eqn:Hfind; [|by left].
  destruct (js_strict_eq (meal !! "chefEmail") (user !! "email")) eqn:Hown; [|by left].
  apply js_strict_eq_true in Hown.
  apply findOne_Some in Hfind as (pre & post & Hsplit & Hpre & Hm).
  right. exists token, user, oid, pre, meal, post.
  rewrite Hsplit, deleteOne_split by done. cbn [negb fst snd].
  split_and!; try done.
  - eapply Forall_impl; [exact Hpre|]. intros x Hx Hx'.
    apply (matches_one x "_id" (VId oid)) in Hx'; [congruence | done].
  - by apply (matches_one meal "_id" (VId oid)).
Qed.

(** X20. A meal that was added can be deleted by its chef: after POST
    /meals with a body without _id, DELETE /meals/:id with the identifier
    of the new meal and the same token, whose e-mail is a string,
    restores the store and reports deletedCount 1. (The identifier is not
    yet taken when the meal is added.) *)
Theorem meal_added_then_deleted now newId req token user email s req' :
  cookie_token req = Some token →
  jwt_verify token = Some user →
  user !! "role" = Some (VStr "chef") →
  user !! "email" = Some (VStr email) →
  body req !! "_id" = None →
  Forall (λ x, x !! "_id" ≠ Some (VId newId)) (meals s) →
  cookie_token req' = Some token →
  ObjectId_new (params_id req') = Some newId →
  delete_meal req' (add_meal now newId req s).1 =
    (s, ok [("deletedCount", JVal (VNum 1))]).
Proof.
  intros Htok Hver Hrole Hemail Hid Hfresh Htok' Hoid.
  unfold meals_post, withToken, withRole. rewrite Htok, Hver, decide_True by done.
  set (meal := bson_doc (body req) _).
  assert (Hmid : meal !! "_id" = None).
  { unfold meal, bson_doc. cbn [fold_left fst snd]. by rewrite !lookup_insert_ne. }
  rewrite insertOne_unique_fresh by done. cbn [fst].
  unfold meals_delete, withToken, withRole.
  rewrite Htok', Hver, decide_True, Hoid by done. cbn [set_meals meals].
  set (stored := <["_id" := VId newId]> meal).
  assert (Hpre : Forall (λ x, matches [("_id", VId newId)] x = false) (meals s)).
  { by apply Forall_not_matches_one. }
  assert (Hst : matches [("_id", VId newId)] stored = true).
  { apply matches_one; [done|]. apply lookup_insert_eq. }
  change (meals s ++ [stored]) with (meals s ++ stored :: []).
  rewrite findOne_split, deleteOne_split by done.
  replace (js_strict_eq (stored !! "chefEmail") (user !! "email")) with true.
  - cbn [negb fst snd]. rewrite app_nil_r. f_equal. by destruct s.
  - unfold stored, meal, bson_doc. cbn [fold_left fst snd].
    rewrite lookup_insert_ne, lookup_insert_ne, lookup_insert_eq, Hemail by done.
    symmetry. by apply bool_decide_eq_true.
Qed.

Lemma ceil_div_spec (a b : Z) :
  (0 ≤ a)%Z → (0 < b)%Z →
  (0 ≤ ceil_div a b ∧ a ≤ ceil_div a b * b ∧ ceil_div a b * b < a + b)%Z.
Proof.
  intros Ha Hb. unfold ceil_div.
  pose proof (Z.div_mod (- a) b). pose proof (Z.mod_pos_bound (- a) b). nia.
Qed.

Lemma get_meals_regular pageParam limitParam s :
  let page := or_num (parseInt pageParam) 1 in
  let limit := or_num (parseInt limitParam) 10 in
  (1 ≤ page)%Z → (1 ≤ limit)%Z →
  get_meals pageParam limitParam s =
    (s, Data 200
          (BObj [("meals", BDocs (take (Z.to_nat limit)
                                    (drop (Z.to_nat ((page - 1) * limit)) (meals s))));
                 ("totalMeals", BVal (VNum (Z.of_nat (length (meals s)))));
                 ("totalPages",
                  BVal (VNum (ceil_div (Z.of_nat (length (meals s))) limit)));
                 ("currentPage", BVal (VNum page))])).
Proof.
  intros page limit Hp Hl. unfold meals_get, page_of. fold page limit.
  replace ((0 <=? (page - 1) * limit)%Z && (0 <? limit)%Z) with true; [done|].
  symmetry. apply andb_true_iff. split; [apply Z.leb_le; nia | apply Z.ltb_lt; lia].
Qed.

(** X21. GET /meals with a positive page and limit (1 and 10 when the
    parameter is missing, zero or not a number) never writes and answers
    with the slice of the meals of that page: at most limit meals, none
    on a page after the last one, and a page count of zero exactly when
    no meal is stored. *)
Theorem meals_page_is_a_slice pageParam limitParam s :
  let page := or_num (parseInt pageParam) 1 in
  let limit := or_num (parseInt limitParam) 10 in
  let out := get_meals pageParam limitParam s in
  let pages := ceil_div (Z.of_nat (length (meals s))) limit in
  (1 ≤ page)%Z → (1 ≤ limit)%Z →
  out.1 = s ∧
  listed "meals" out.2 =
    take (Z.to_nat limit) (drop (Z.to_nat ((page - 1) * limit)) (meals s)) ∧
  (Z.of_nat (length (listed "meals" out.2)) ≤ limit)%Z ∧
  ((pages < page)%Z → listed "meals" out.2 = []) ∧
  (pages = 0%Z ↔ meals s = []).
Proof.
  intros page limit out pages Hp Hl. subst out.
  rewrite (get_meals_regular pageParam limitParam s Hp Hl). fold page limit.
  cbn [fst snd listed List.find String.eqb Ascii.eqb Bool.eqb].
  destruct (ceil_div_spec (Z.of_nat (length (meals s))) limit) as (H0 & H1 & H2);
    [lia | lia |]. fold pages in H0, H1, H2.
  split_and!; [done | done | | |].
  - rewrite length_take. lia.
  - intros Hlast. rewrite drop_ge by nia. apply take_nil.
  - split.
    + intros Hz. rewrite Hz in H1. apply length_zero_iff_nil. lia.
    + intros Hnil. rewrite Hnil in H2. simpl in H2. nia.
Qed.

Lemma chunks_concat (l : nat) (xs : list Doc) n :
  concat (map (λ i, take l (drop ((i - 1) * l) xs)) (seq 1 n)) = take (n * l) xs.
Proof.
  induction n as [|n IH]; [done|].
  rewrite seq_S, map_app, concat_app, IH. simpl. rewrite app_nil_r.
  replace (n - 0)%nat with n by lia.
  rewrite take_take_drop. f_equal. lia.
Qed.

(** X22. The pages of GET /meals partition the catalogue: for a positive
    limit, the meals of the pages 1 to totalPages, in this order, are the
    stored meals, each one once. *)
Theorem meals_pages_partition (pageParam : nat → option string) limitParam s :
  let limit := or_num (parseInt limitParam) 10 in
  let pages := Z.to_nat (ceil_div (Z.of_nat (length (meals s))) limit) in
  (∀ i, (1 ≤ i ≤ pages)%nat → parseInt (pageParam i) = Some (Z.of_nat i)) →
  (1 ≤ limit)%Z →
  concat (map (λ i, listed "meals" (get_meals (pageParam i) limitParam s).2)
              (seq 1 pages)) = meals s.
Proof.
  intros limit pages Hparam Hl.
  destruct (ceil_div_spec (Z.of_nat (length (meals s))) limit) as (H0 & H1 & H2);
    [lia | lia |].
  transitivity (concat (map (λ i, take (Z.to_nat limit)
                                    (drop ((i - 1) * Z.to_nat limit) (meals s)))
                            (seq 1 pages))).
  - f_equal. apply map_ext_in. intros i Hi. apply in_seq in Hi.
    assert (Hpage : or_num (parseInt (pageParam i)) 1 = Z.of_nat i).
    { rewrite Hparam by lia. unfold or_num.
      destruct (Z.of_nat i =? 0)%Z eqn:Hz; [|done]. apply Z.eqb_eq in Hz. lia. }
    rewrite get_meals_regular by (fold limit; lia).
    cbn [snd listed List.find String.eqb Ascii.eqb Bool.eqb]. fold limit.
    rewrite Hpage. do 2 f_equal. nia.
  - rewrite chunks_concat. apply take_ge. subst pages. nia.
Qed.

End Catalogue.

(** ** Reviews: POST /reviews *)

Section Reviews.

Context {Token : Type} (jwt_sign : Doc → Token) (jwt_verify : Token → option Doc).
Context (ToNumber : string → option Z).

#[local] Abbreviation post_review := (reviews_post Token jwt_verify ToNumber).

(** The outcomes of POST /reviews. *)
Lemma reviews_post_cases now newId req s :
  (post_review now newId req s).1 = s ∨
  ∃ token user,
    cookie_token req = Some token ∧ jwt_verify token = Some user ∧
    truthy (body req !! "rating") = true ∧
    js_lt (to_number ToNumber (body req !! "rating")) (Some 1%Z) = false ∧
    js_lt (Some 5%Z) (to_number ToNumber (body req !! "rating")) = false ∧
    post_review now newId req s =
      (set_reviews s (reviews s ++ [with_id newId (new_review now (body req) user)]),
       ok [("insertedId", JVal (VId newId))]).
Proof.
  unfold reviews_post, withToken.
  destruct (cookie_token req) as [token|]; [|by left].
  destruct (jwt_verify token) as [user|] eqn:Hver; [|by left].
  fold (new_review now (body req) user).
  destruct (truthy (body req !! "foodId")); [|by left].
  destruct (truthy (body req !! "rating")) eqn:Hr; [|by left].
  destruct (truthy (body req !! "comment")); [|by left]. cbn [negb orb].
  destruct (js_lt (to_number ToNumber (body req !! "rating")) (Some 1%Z)) eqn:Hlow;
    [by left|].
  destruct (js_lt (Some 5%Z) (to_number ToNumber (body req !! "rating"))) eqn:Hhigh;
    [by left|]. cbn [orb].
  destruct (insertOne_unique _ _ _) as [rs|] eqn:Hins; [|by left].
  apply insertOne_unique_Some in Hins as ->.
  right. by exists token, user.
Qed.

Lemma new_review_lookup now b user :
  new_review now b user !! "_id" = None ∧
  new_review now b user !! "rating" = Some (bson (b !! "rating")) ∧
  new_review now b user !! "reviewerEmail" = Some (bson (user !! "email")) ∧
  new_review now b user !! "reviewerName" =
    Some (bson (js_or (user !! "name") (Some (VStr "Anonymous")))) ∧
  new_review now b user !! "reviewerImage" =
    Some (bson (js_or (user !! "avatar") (Some VNull))).
Proof.
  unfold new_review, bson_doc. cbn [fold_left fst snd]. split_and!; by lookup_json.
Qed.

(** X23. A review is stored only with a rating that passed the check:
    POST /reviews either leaves the store as it is or appends one review,
    with the rating of the request and the e-mail of the token as
    reviewerEmail; a rating that is a number lies between 1 and 5, and so
    does a rating that is a string which converts to a number. *)
Theorem review_rating_is_checked now newId req s :
  let out := post_review now newId req s in
  out.1 = s ∨
  ∃ token user r,
    cookie_token req = Some token ∧ jwt_verify token = Some user ∧
    out.1 = set_reviews s (reviews s ++ [r]) ∧
    r !! "rating" = body req !! "rating" ∧
    r !! "reviewerEmail" = Some (bson (user !! "email")) ∧
    (∀ n, r !! "rating" = Some (VNum n) → (1 ≤ n ≤ 5)%Z) ∧
    (∀ str n, r !! "rating" = Some (VStr str) → ToNumber str = Some n → (1 ≤ n ≤ 5)%Z).
Proof.
  intros out. subst out.
  destruct (reviews_post_cases now newId req s)
    as [? | (token & user & Htok & Hver & Hr & Hlow & Hhigh & ->)]; [by left|].
  right. exists token, user, (with_id newId (new_review now (body req) user)).
  destruct (new_review_lookup now (body req) user) as (_ & Hrat & Hmail & _).
  assert (Hrating : with_id newId (new_review now (body req) user) !! "rating" =
                    body req !! "rating").
  { rewrite with_id_lookup, Hrat by done. by apply truthy_bson. }
  split_and!; try done.
  - intros n Hn. rewrite Hrating in Hn. rewrite Hn in Hlow, Hhigh.
    simpl in Hlow, Hhigh. apply Z.ltb_ge in Hlow, Hhigh. lia.
  - intros str n Hstr Hnum. rewrite Hrating in Hstr. rewrite Hstr in Hlow, Hhigh.
    simpl in Hlow, Hhigh. rewrite Hnum in Hlow, Hhigh.
    simpl in Hlow, Hhigh. apply Z.ltb_ge in Hlow, Hhigh. lia.
Qed.

(** X24. The rating check lets through what is not a number: a review
    whose rating is a non-empty string that does not convert to a number
    is stored with that string as its rating. *)
Theorem unparsable_rating_is_stored now newId req token user str s :
  cookie_token req = Some token →
  jwt_verify token = Some user →
  truthy (body req !! "foodId") = true →
  truthy (body req !! "comment") = true →
  body req !! "rating" = Some (VStr str) →
  str ≠ "" →
  ToNumber str = None →
  Forall (λ x, x !! "_id" ≠ Some (VId newId)) (reviews s) →
  ∃ r, post_review now newId req s =
         (set_reviews s (reviews s ++ [r]), ok [("insertedId", JVal (VId newId))]) ∧
       r !! "rating" = Some (VStr str).
Proof.
  intros Htok Hver Hfood Hcomment Hrating Hne Hnan Hfresh.
  unfold reviews_post, withToken. rewrite Htok, Hver, Hfood, Hcomment, Hrating.
  fold (new_review now (body req) user).
  assert (Htr : truthy (Some (VStr str)) = true).
  { simpl. apply negb_true_iff. by apply String.eqb_neq. }
  rewrite Htr. cbn [negb orb to_number]. rewrite Hnan. cbn [js_lt orb].
  destruct (new_review_lookup now (body req) user) as (Hid & Hrat & _).
  rewrite insertOne_unique_fresh by done.
  exists (<["_id" := VId newId]> (new_review now (body req) user)).
  split; [unfold new_review; by rewrite Hrating|].
  rewrite lookup_insert_ne, Hrat, Hrating by done. done.
Qed.

(** X25. Whoever logged in reviews anonymously: the token of POST
    /auth/login has no name and no avatar, so a review stored by POST
    /reviews with such a token has reviewerName Anonymous and
    reviewerImage null. ([jwt_verify] is assumed to return the claims that
    were signed, up to iat and exp.) *)
Theorem reviewer_of_a_login_token_is_anonymous
    login_req login_db token reply now newId req s :
  (∀ p u, jwt_verify (jwt_sign p) = Some u →
          ∀ k, k ≠ "iat" → k ≠ "exp" → u !! k = p !! k) →
  (auth_login Token jwt_sign login_req login_db).2 = Cookie_reply token reply →
  cookie_token req = Some token →
  let out := post_review now newId req s in
  out.1 = s ∨
  ∃ r, out.1 = set_reviews s (reviews s ++ [r]) ∧
       r !! "reviewerName" = Some (VStr "Anonymous") ∧
       r !! "reviewerImage" = Some VNull.
Proof.
  intros Hjwt Hlogin Hcookie out. subst out.
  destruct (auth_login_token _ _ _ _ _ Hlogin) as [account ->].
  destruct (reviews_post_cases now newId req s)
    as [? | (token & user & Htok & Hver & _ & _ & _ & ->)]; [by left|].
  rewrite Hcookie in Htok. injection Htok as <-.
  right. exists (with_id newId (new_review now (body req) user)). split; [done|].
  destruct (new_review_lookup now (body req) user) as (_ & _ & _ & Hname & Himg).
  rewrite !with_id_lookup, Hname, Himg by done.
  rewrite !(Hjwt _ _ Hver), !login_payload_keys by done. done.
Qed.

End Reviews.

(** * Scenarios on the other routes *)

Lemma register_keeps_emails_unique_witness :
  NoDup (email_of <$> users (core Demo.registered.1)).
Proof.
  apply (register_keeps_emails_unique Fixture.jwt_sign Demo.admin_id
           (Demo.anonymous Demo.admin_body) (Demo.site Fixture.placed)).
  apply (bool_decide_unpack _). vm_compute. exact I.
Defined.

Lemma self_registered_admin_reads_all_orders_witness :
  Demo.admin !! "role" = Some (VStr "admin") ∧
  admin_orders Doc Fixture.jwt_verify (Fixture.as_ Demo.admin "" ∅) Demo.registered.1 =
    (Demo.registered.1, Data 200 (BDocs (orders (core Demo.registered.1)))).
Proof.
  split; [vm_compute; reflexivity|].
  destruct (self_registered_admin_reads_all_orders Fixture.jwt_sign Fixture.jwt_verify
              Demo.admin_id (Demo.anonymous Demo.admin_body) (Demo.site Fixture.placed)
              Demo.admin (Demo.json_in Demo.registered.2) Demo.admin
              (Fixture.as_ Demo.admin "" ∅) Demo.registered.1 Fixture_jwt_faithful)
    as [_ H]; [vm_compute; reflexivity | vm_compute; reflexivity | reflexivity
              | reflexivity | exact H].
Defined.

Lemma register_then_login_witness :
  let db := core Demo.registered.1 in
  ∃ user reply',
    user ∈ users db ∧
    auth_login Doc Fixture.jwt_sign (Fixture.login_as "root@x.com") db =
      (db, Cookie_reply (Fixture.jwt_sign (login_payload user)) reply') ∧
    login_payload user !! "email" = Some (bson (Demo.admin_body !! "email")) ∧
    login_payload user !! "role" =
      js_or (Demo.admin_body !! "role") (Some (VStr "user")) ∧
    login_payload user !! "id" = Some (VStr Demo.admin_id).
Proof.
  apply (register_then_login Fixture.jwt_sign Demo.admin_id
           (Demo.anonymous Demo.admin_body) (Demo.site Fixture.placed)
           Demo.admin (Demo.json_in Demo.registered.2) (Fixture.login_as "root@x.com"));
    vm_compute; reflexivity.
Defined.

Lemma placed_order_is_listed_to_its_customer_only_witness :
  let order := placed_order Fixture.t0 Fixture.order_id (Fixture.order_body 20)
                 Fixture.customer in
  listed "orders"
    (orders_my_orders Doc Fixture.jwt_verify (Fixture.as_ Fixture.customer "" ∅)
       (Demo.site Fixture.placed)).2 =
    find [("userEmail", bson (Fixture.customer !! "email"))] (orders Fixture.empty_db)
      ++ [order] ∧
  order ∉ listed "orders"
            (orders_my_orders Doc Fixture.jwt_verify (Fixture.as_ Demo.admin "" ∅)
               (Demo.site Fixture.placed)).2.
Proof.
  intros order. split.
  - destruct (placed_order_is_listed_to_its_customer_only Fixture.jwt_verify
                Fixture.t0 Fixture.order_id
                (Fixture.as_ Fixture.customer "" (Fixture.order_body 20))
                Fixture.customer Fixture.customer Fixture.empty_db
                (Fixture.as_ Fixture.customer "" ∅) (Demo.site Fixture.placed))
      as (_ & H & _);
      [reflexivity | reflexivity | vm_compute; reflexivity | vm_compute; reflexivity
      | reflexivity |].
    by apply H.
  - destruct (placed_order_is_listed_to_its_customer_only Fixture.jwt_verify
                Fixture.t0 Fixture.order_id
                (Fixture.as_ Fixture.customer "" (Fixture.order_body 20))
                Fixture.customer Fixture.customer Fixture.empty_db
                (Fixture.as_ Demo.admin "" ∅) (Demo.site Fixture.placed))
      as (_ & _ & H);
      [reflexivity | reflexivity | vm_compute; reflexivity | vm_compute; reflexivity
      | reflexivity |].
    apply (H Demo.admin Demo.admin); [reflexivity | reflexivity |].
    vm_compute. discriminate.
Defined.


Lemma placed_order_can_be_cancelled_witness :
  orders_cancel Doc Fixture.jwt_verify Fixture.ObjectId_new Fixture.t1
    (Fixture.as_ Fixture.customer Fixture.order_id ∅) Fixture.placed =
  (set_orders Fixture.empty_db
     (orders Fixture.empty_db ++
        [<["cancelledAt" := VStr Fixture.t1]>
           (<["orderStatus" := VStr "cancelled"]>
              (placed_order Fixture.t0 Fixture.order_id (Fixture.order_body 20)
                 Fixture.customer))]),
   modified {| matchedCount := 1; modifiedCount := 1 |}).
Proof.
  apply (placed_order_can_be_cancelled Fixture.jwt_verify Fixture.ObjectId_new
           Fixture.t0 Fixture.order_id
           (Fixture.as_ Fixture.customer "" (Fixture.order_body 20))
           Fixture.customer Fixture.customer Fixture.empty_db Fixture.t1
           (Fixture.as_ Fixture.customer Fixture.order_id ∅));
    [reflexivity | reflexivity | vm_compute; reflexivity | vm_compute; reflexivity
    | apply Forall_nil_2 | reflexivity | vm_compute; reflexivity].
Defined.



Lemma request_is_filed_under_the_requester_witness :
  let out := requests_post Doc Fixture.jwt_verify Fixture.t0 Demo.request_id
               (Fixture.as_ Fixture.customer "" Demo.request_body) Demo.registered.1 in
  Demo.request_body !! "userEmail" = Some (VStr "chef@x.com") ∧
  out.2 = ok [("insertedId", JVal (VId Demo.request_id))] ∧
  ∃ r, out.1 = set_requests Demo.registered.1 (requests Demo.registered.1 ++ [r]) ∧
       r !! "userEmail" = Some (VStr "u@x.com") ∧
       r !! "requestStatus" = Some (VStr "pending").
Proof.
  intros out. split; [vm_compute; reflexivity|].
  destruct (request_is_filed_under_the_requester Fixture.jwt_verify Fixture.t0
              Demo.request_id (Fixture.as_ Fixture.customer "" Demo.request_body)
              Fixture.customer Fixture.customer Demo.registered.1)
    as [Hcases Hfresh]; [reflexivity | reflexivity | vm_compute; reflexivity |].
  destruct Hfresh as [Hne Hok]; [vm_compute; reflexivity | apply Forall_nil_2 |].
  split; [exact Hok|].
  destruct Hcases as [Hsame | (r & H1 & H2 & H3 & _)]; [by destruct Hne|].
  exists r. split_and!; [exact H1 | exact H2 | exact H3].
Defined.

Lemma approve_chef_request_witness :
  let out := Demo.approve Fixture.t1 4711 Demo.filed in
  users (core out.1) =
    [Fixture.chef_user] ++
      <["chefId" := VStr "chef-4711"]> (<["role" := VStr "chef"]> Fixture.customer_user)
      :: drop 2 (users (core Demo.filed)) ∧
  requests out.1 =
    [] ++ <["approvedAt" := VStr Fixture.t1]>
            (<["requestStatus" := VStr "approved"]> (Demo.the_request Demo.filed)) :: [] ∧
  out.2 = ok [("message", JVal (VStr "Request approved successfully"))].
Proof.
  intros out.
  destruct (approve_chef_request Fixture.jwt_verify Fixture.ObjectId_new Fixture.t1 4711
              (Fixture.as_ Demo.admin Demo.request_id ∅) Demo.admin Demo.admin
              Demo.request_id [] (Demo.the_request Demo.filed) []
              [Fixture.chef_user] Fixture.customer_user (drop 2 (users (core Demo.filed)))
              Demo.filed)
    as (H1 & H2 & _ & _ & H3);
    [reflexivity | reflexivity | vm_compute; reflexivity | vm_compute; reflexivity
    | vm_compute; reflexivity | apply Forall_nil_2 | vm_compute; reflexivity
    | vm_compute; reflexivity | vm_compute; reflexivity
    | repeat constructor; vm_compute; discriminate | vm_compute; reflexivity |].
  split_and!; [exact H1 | exact H2 | exact H3].
Defined.

Lemma approve_without_typed_request_witness :
  requests_approve Doc Fixture.jwt_verify Fixture.ObjectId_new Fixture.t1 4711
    (Fixture.as_ Demo.admin "64b7f0c2a1d3e4f5a6b7c8ff" ∅) Demo.filed =
  (Demo.filed, fail 404 "Request not found").
Proof.
  destruct (approve_without_typed_request Fixture.jwt_verify Fixture.ObjectId_new
              Fixture.t1 4711 (Fixture.as_ Demo.admin "64b7f0c2a1d3e4f5a6b7c8ff" ∅)
              Demo.admin Demo.admin "64b7f0c2a1d3e4f5a6b7c8ff" Demo.filed)
    as [H _]; [reflexivity | reflexivity | vm_compute; reflexivity
              | vm_compute; reflexivity |].
  apply H. repeat constructor. vm_compute. discriminate.
Defined.

Lemma reject_keeps_granted_roles_witness :
  let approved := (Demo.approve Fixture.t1 4711 Demo.filed).1 in
  let out := requests_reject Doc Fixture.jwt_verify Fixture.ObjectId_new Fixture.t2
               (Fixture.as_ Demo.admin Demo.request_id ∅) approved in
  Demo.the_request approved !! "requestStatus" = Some (VStr "approved") ∧
  core out.1 = core approved ∧
  requests out.1 =
    [] ++ <["rejectedAt" := VStr Fixture.t2]>
            (<["requestStatus" := VStr "rejected"]> (Demo.the_request approved)) :: [].
Proof.
  intros approved out. split; [vm_compute; reflexivity|].
  destruct (reject_keeps_granted_roles Fixture.jwt_verify Fixture.ObjectId_new Fixture.t2
              (Fixture.as_ Demo.admin Demo.request_id ∅) approved)
    as (H1 & _ & _ & _ & H2).
  split; [exact H1|].
  apply (H2 Demo.admin Demo.admin Demo.request_id [] (Demo.the_request approved) []);
    [reflexivity | reflexivity | vm_compute; reflexivity | vm_compute; reflexivity
    | vm_compute; reflexivity | apply Forall_nil_2 | vm_compute; reflexivity].
Defined.

Lemma favorites_stay_unique_witness :
  let add s := (favorites_post Doc Fixture.jwt_verify Fixture.t0 Demo.favourite_id
                  (Fixture.as_ Fixture.customer "" Demo.favourite_body) s).1 in
  NoDup (favorite_key <$> favorites (add (add (Demo.site Fixture.placed)))) ∧
  length (favorites (add (add (Demo.site Fixture.placed)))) = 1%nat.
Proof.
  intros add. split; [|vm_compute; reflexivity].
  apply (favorites_stay_unique Fixture.jwt_verify).
  apply (bool_decide_unpack _). vm_compute. exact I.
Defined.

Lemma favorite_added_then_removed_witness :
  let s := Demo.site Fixture.placed in
  favorites_delete Doc Fixture.jwt_verify (Fixture.as_ Fixture.customer "m1" ∅)
    (favorites_post Doc Fixture.jwt_verify Fixture.t0 Demo.favourite_id
       (Fixture.as_ Fixture.customer "" Demo.favourite_body) s).1 =
  (s, ok [("deletedCount", JVal (VNum 1))]).
Proof.
  apply (favorite_added_then_removed Fixture.jwt_verify Fixture.t0 Demo.favourite_id
           (Fixture.as_ Fixture.customer "" Demo.favourite_body) Fixture.customer "m1");
    [reflexivity | vm_compute; reflexivity | vm_compute; reflexivity | reflexivity
    | reflexivity].
Defined.

Lemma meal_is_stored_under_its_chef_witness :
  let out := meals_post Doc Fixture.jwt_verify Fixture.t0 (Demo.meal_id "1")
               (Fixture.as_ Fixture.chef "" (Demo.meal_body "Khichuri"))
               (Demo.site Fixture.placed) in
  Demo.meal_body "Khichuri" !! "chefEmail" = Some (VStr "other@x.com") ∧
  out.2 = ok [("insertedId", JVal (VId (Demo.meal_id "1")))] ∧
  ∃ meal, out.1 = set_meals (Demo.site Fixture.placed) ([] ++ [meal]) ∧
          meal !! "chefEmail" = Some (VStr "chef@x.com").
Proof.
  intros out. split; [vm_compute; reflexivity|].
  destruct (meal_is_stored_under_its_chef Fixture.jwt_verify Fixture.t0 (Demo.meal_id "1")
              (Fixture.as_ Fixture.chef "" (Demo.meal_body "Khichuri"))
              Fixture.chef Fixture.chef (Demo.site Fixture.placed))
    as [Hcases Hfresh]; [reflexivity | reflexivity | vm_compute; reflexivity |].
  destruct Hfresh as [Hne Hok]; [vm_compute; reflexivity | apply Forall_nil_2 |].
  split; [exact Hok|].
  destruct Hcases as [Hsame | (meal & H1 & H2 & _)]; [by destruct Hne|].
  exists meal. split; [exact H1 | exact H2].
Defined.

Lemma meal_added_then_deleted_witness :
  let s := Demo.site Fixture.placed in
  meals_delete Doc Fixture.jwt_verify Fixture.ObjectId_new
    (Fixture.as_ Fixture.chef (Demo.meal_id "1") ∅)
    (meals_post Doc Fixture.jwt_verify Fixture.t0 (Demo.meal_id "1")
       (Fixture.as_ Fixture.chef "" (Demo.meal_body "Khichuri")) s).1 =
  (s, ok [("deletedCount", JVal (VNum 1))]).
Proof.
  apply (meal_added_then_deleted Fixture.jwt_verify Fixture.ObjectId_new Fixture.t0
           (Demo.meal_id "1") (Fixture.as_ Fixture.chef "" (Demo.meal_body "Khichuri"))
           Fixture.chef Fixture.chef "chef@x.com");
    [reflexivity | reflexivity | vm_compute; reflexivity | vm_compute; reflexivity
    | vm_compute; reflexivity | apply Forall_nil_2 | reflexivity | vm_compute; reflexivity].
Defined.

Lemma meals_page_is_a_slice_witness :
  let out := meals_get Doc Demo.parseInt Demo.cursor_irregular (Some "2") (Some "2")
               Demo.catalogue in
  length (meals Demo.catalogue) = 3%nat ∧
  out.1 = Demo.catalogue ∧
  listed "meals" out.2 = take 2 (drop 2 (meals Demo.catalogue)) ∧
  length (listed "meals" out.2) = 1%nat.
Proof.
  intros out. split; [vm_compute; reflexivity|].
  destruct (meals_page_is_a_slice (Token:=Doc) Demo.parseInt Demo.cursor_irregular
              (Some "2") (Some "2") Demo.catalogue)
    as (H1 & H2 & _); [vm_compute; discriminate | vm_compute; discriminate |].
  split_and!; [exact H1 | exact H2 | vm_compute; reflexivity].
Defined.

Lemma meals_pages_partition_witness :
  concat (map (λ i, listed "meals"
                      (meals_get Doc Demo.parseInt Demo.cursor_irregular (Demo.page i)
                         (Some "2") Demo.catalogue).2)
              (seq 1 2)) = meals Demo.catalogue.
Proof.
  apply (meals_pages_partition (Token:=Doc) Demo.parseInt Demo.cursor_irregular
           Demo.page (Some "2") Demo.catalogue).
  - intros i Hi.
    change (1 ≤ i ≤ 2)%nat in Hi.
    destruct i as [|[|[|i]]]; [lia | reflexivity | reflexivity | lia].
  - vm_compute. discriminate.
Defined.

Lemma unparsable_rating_is_stored_witness :
  ∃ r, reviews_post Doc Fixture.jwt_verify Fixture.ToNumber Fixture.t0 Demo.review_id
         (Fixture.as_ Fixture.customer "" (Demo.review_body (VStr "excellent")))
         (Demo.site Fixture.placed) =
         (set_reviews (Demo.site Fixture.placed) ([] ++ [r]),
          ok [("insertedId", JVal (VId Demo.review_id))]) ∧
       r !! "rating" = Some (VStr "excellent").
Proof.
  apply (unparsable_rating_is_stored Fixture.jwt_verify Fixture.ToNumber Fixture.t0
           Demo.review_id
           (Fixture.as_ Fixture.customer "" (Demo.review_body (VStr "excellent")))
           Fixture.customer Fixture.customer "excellent" (Demo.site Fixture.placed));
    [reflexivity | reflexivity | vm_compute; reflexivity | vm_compute; reflexivity
    | vm_compute; reflexivity | discriminate | reflexivity | apply Forall_nil_2].
Defined.

Lemma reviewer_of_a_login_token_is_anonymous_witness :
  let s := Demo.site Fixture.placed in
  let out := reviews_post Doc Fixture.jwt_verify Fixture.ToNumber Fixture.t0 Demo.review_id
               (Fixture.as_ Fixture.customer "" (Demo.review_body (VNum 5))) s in
  Fixture.customer_user !! "name" = Some (VStr "Uma") ∧
  length (reviews out.1) = 1%nat ∧
  (out.1 = s ∨
   ∃ r, out.1 = set_reviews s (reviews s ++ [r]) ∧
        r !! "reviewerName" = Some (VStr "Anonymous") ∧
        r !! "reviewerImage" = Some VNull).
Proof.
  intros s out. split_and!; [vm_compute; reflexivity..|].
  apply (reviewer_of_a_login_token_is_anonymous Fixture.jwt_sign Fixture.jwt_verify
           Fixture.ToNumber (Fixture.login_as "u@x.com") Fixture.empty_db Fixture.customer
           (match (auth_login Doc Fixture.jwt_sign (Fixture.login_as "u@x.com")
                     Fixture.empty_db).2 with
            | Cookie_reply _ reply => reply
            | _ => JVal VNull
            end)
           Fixture.t0 Demo.review_id
           (Fixture.as_ Fixture.customer "" (Demo.review_body (VNum 5))) s
           Fixture_jwt_faithful);
    [vm_compute; reflexivity | reflexivity].
Defined.
